(** * Multilingual Mandi: the authentication service

    A shallow embedding of the backend authentication code
    ([services/auth.ts], [types/auth.ts], [middleware/auth.ts]) and of the
    phone-number rule of the client registration form ([RegisterForm.tsx]).

    - JavaScript strings are [string]; one character stands for one UTF-16
      code unit (the model covers the code units 0..255).
    - [process.env], the users table behind [prisma.user], the calls the
      storage collaborator receives, the console and the clock form the
      [World]; an [async] method is a function in the monad [M], which
      threads the world and may throw.  What was written before a throw
      stays written.
    - zod's e-mail test, bcryptjs, jsonwebtoken and the database's id
      generator are third-party code: they are the fields of type classes,
      and every theorem holds for all their instances.
    - The storage collaborator is a table that answers every call: a
      lookup finds the first row with the key, [create] appends a row and
      refuses a second row with the same e-mail, [update] refuses an id
      that is not stored.  Outages and column limits are not modelled. *)

From Stdlib Require Import String Ascii List Bool Arith ZArith Lia DecimalString.
Import ListNotations.
Local Open Scope string_scope.

(** ** JavaScript strings *)

Module Js.

(** White space and line terminators removed by [String.prototype.trim],
    among the code units below 256: TAB, LF, VT, FF, CR, SP and NBSP. *)
Definition is_white_space (c : ascii) : bool :=
  let n := nat_of_ascii c in
  ((9 <=? n)%nat && (n <=? 13)%nat) || (n =? 32)%nat || (n =? 160)%nat.

Fixpoint trimStart (s : string) : string :=
  match s with
  | EmptyString => EmptyString
  | String c r => if is_white_space c then trimStart r else s
  end.

Fixpoint trimEnd (s : string) : string :=
  match s with
  | EmptyString => EmptyString
  | String c r =>
      match trimEnd r with
      | EmptyString => if is_white_space c then EmptyString else String c EmptyString
      | r' => String c r'
      end
  end.

(** [s.trim()] *)
Definition trim (s : string) : string := trimEnd (trimStart s).

(** A string in a boolean position: only [''] is falsy. *)
Definition truthy (s : string) : bool := negb (s =? "").

(** An optional string in a boolean position: [undefined] is falsy too. *)
Definition truthy_opt (o : option string) : bool :=
  match o with
  | Some s => truthy s
  | None => false
  end.

(** [a || b] on strings that may be [undefined]. *)
Definition or_else (o : option string) (default : string) : string :=
  match o with
  | Some s => if truthy s then s else default
  | None => default
  end.

(** [s.split(sep)] for a one-character separator. *)
Fixpoint split (sep : ascii) (s : string) : list string :=
  match s with
  | EmptyString => [EmptyString]
  | String c r =>
      if Ascii.eqb c sep then EmptyString :: split sep r
      else match split sep r with
           | [] => [String c EmptyString]
           | h :: t => String c h :: t
           end
  end.

(** [xs.join(sep)] *)
Definition join (sep : string) (xs : list string) : string := String.concat sep xs.

(** [\d] without the unicode flag: the ten ASCII digits. *)
Definition is_digit (c : ascii) : bool :=
  let n := nat_of_ascii c in (48 <=? n)%nat && (n <=? 57)%nat.

(** [s.replace(/\D/g, '')] *)
Fixpoint strip_non_digits (s : string) : string :=
  match s with
  | EmptyString => EmptyString
  | String c r => if is_digit c then String c (strip_non_digits r) else strip_non_digits r
  end.

Fixpoint all_digits (s : string) : bool :=
  match s with
  | EmptyString => true
  | String c r => is_digit c && all_digits r
  end.

(** [/^\d{10}$/.test(s)] *)
Definition test_ten_digits (s : string) : bool :=
  (String.length s =? 10)%nat && all_digits s.

(** Characters of [s] that are not white space, wherever they stand. *)
Fixpoint count_non_white_space (s : string) : nat :=
  match s with
  | EmptyString => 0
  | String c r => (if is_white_space c then 0 else 1) + count_non_white_space r
  end.

(** A plain object with string values, keys in insertion order. *)
Definition object : Type := list (string * string).

Definition keys (o : object) : list string := map fst o.

(** [o[k]]: [None] is [undefined]. *)
Fixpoint get (k : string) (o : object) : option string :=
  match o with
  | [] => None
  | (k', v) :: r => if k' =? k then Some v else get k r
  end.

End Js.

(** ** types/auth.ts *)

(** [UserRegistrationData], the type inferred from [UserRegistrationSchema].
    [userType] is kept a string so that the schema's enum test has
    something to decide. *)
Record UserRegistrationData : Type := {
  email : string;
  password : string;
  name : string;
  preferredLanguage : string;
  userType : string;
  phoneNumber : option string
}.

Module LoginCredentials.
Record t : Type := { email : string; password : string }.
End LoginCredentials.

(** [AuthResult]: an absent property is [None]. *)
Record AuthResult : Type := {
  success : bool;
  user : option Js.object;
  token : option string;
  refreshToken : option string;
  error : option string
}.

(** [{ success: false, error }] *)
Definition failure (msg : string) : AuthResult :=
  {| success := false; user := None; token := None; refreshToken := None;
     error := Some msg |}.

(** ** The persisted users and the storage collaborator's interface *)

(** A row of the users table, with the columns the service reads or writes. *)
Module User.
Record t : Type := {
  id : string;
  email : string;
  passwordHash : string;
  name : string;
  userType : string;
  preferredLanguage : string;
  phoneNumber : option string
}.
End User.

(** The [data] object of [prisma.user.create]. *)
Module UserCreateInput.
Record t : Type := {
  email : string;
  passwordHash : string;
  name : string;
  userType : string;
  preferredLanguage : string;
  phoneNumber : option string
}.
End UserCreateInput.

(** The calls [prisma.user] can receive from the service. *)
Inductive PrismaCall : Type :=
| FindUniqueByEmail (email : string)
| FindUniqueById (id : string)
| Create (data : UserCreateInput.t)
| Update (id : string) (preferredLanguage : string).

Definition is_write (c : PrismaCall) : bool :=
  match c with
  | Create _ | Update _ _ => true
  | FindUniqueByEmail _ | FindUniqueById _ => false
  end.

(** ** jsonwebtoken's payloads and errors *)

(** The claims the service binds into a token: [{ userId, email }], and
    [type: 'refresh'] in a refresh token. *)
Module JwtPayload.
Record t : Type := { userId : string; email : string; type : option string }.
End JwtPayload.

(** What [jwt.verify] reports: a bad signature or a malformed token, a
    token past its expiry, a token not yet valid. *)
Inductive JwtError : Type :=
| JsonWebTokenError
| TokenExpiredError
| NotBeforeError.

Inductive VerifyResult : Type :=
| Decoded (payload : JwtPayload.t)
| VerifyError (err : JwtError).

(** ** Third-party code *)

(** zod's test behind [z.string().email(...)]. *)
Class Zod : Type := {
  zod_is_email : string -> bool
}.

(** bcryptjs: [hash(password, rounds)] draws a salt, here the third
    argument; [compare(password, hash)]. *)
Class Bcrypt : Type := {
  bcrypt_hash : string -> nat -> nat -> string;
  bcrypt_compare : string -> string -> bool
}.

(** jsonwebtoken: [sign(payload, secret, { expiresIn })] at the current
    time, and [verify(token, secret)] at the current time.  Times are in
    seconds. *)
Class Jwt : Type := {
  jwt_sign : JwtPayload.t -> string -> Z -> Z -> string;
  jwt_verify : string -> string -> Z -> VerifyResult
}.

(** The id the database gives a new row, from the rows it holds. *)
Class Database : Type := {
  generate_id : list User.t -> string
}.

(** ** The world *)

(** The variables of [process.env] the code reads. *)
Record Env : Type := {
  JWT_SECRET : option string;
  JWT_REFRESH_SECRET : option string;
  NODE_ENV : option string
}.

Record World : Type := {
  env : Env;
  users : list User.t;
  calls : list PrismaCall;
  console : list string;
  clock : Z;
  entropy : nat
}.

Definition set_users (us : list User.t) (w : World) : World :=
  {| env := env w; users := us; calls := calls w; console := console w;
     clock := clock w; entropy := entropy w |}.

Definition log_call (c : PrismaCall) (w : World) : World :=
  {| env := env w; users := users w; calls := calls w ++ [c]; console := console w;
     clock := clock w; entropy := entropy w |}.

Definition log_console (line : string) (w : World) : World :=
  {| env := env w; users := users w; calls := calls w; console := console w ++ [line];
     clock := clock w; entropy := entropy w |}.

Definition next_entropy (w : World) : World :=
  {| env := env w; users := users w; calls := calls w; console := console w;
     clock := clock w; entropy := S (entropy w) |}.

(** ** Computations that read and write the world and may throw *)

Inductive Exn : Type :=
| JwtException (err : JwtError)
| PrismaException (code : string).

Inductive Outcome (A : Type) : Type :=
| Returned (a : A)
| Thrown (e : Exn).

Arguments Returned {A} a.
Arguments Thrown {A} e.

Definition M (A : Type) : Type := World -> Outcome A * World.

Definition ret {A : Type} (a : A) : M A := fun w => (Returned a, w).

Definition bind {A B : Type} (m : M A) (k : A -> M B) : M B :=
  fun w =>
    match m w with
    | (Returned a, w') => k a w'
    | (Thrown e, w') => (Thrown e, w')
    end.

Definition throw {A : Type} (e : Exn) : M A := fun w => (Thrown e, w).

(** [try { body } catch (error) { handler }] *)
Definition try_catch {A : Type} (body : M A) (handler : Exn -> M A) : M A :=
  fun w =>
    match body w with
    | (Returned a, w') => (Returned a, w')
    | (Thrown e, w') => handler e w'
    end.

(** A method whose whole body is a [try] with a [catch] that returns: it
    always returns. *)
Definition try_catch_return {A : Type} (body : M A) (handler : Exn -> World -> A * World)
  : World -> A * World :=
  fun w =>
    match body w with
    | (Returned a, w') => (a, w')
    | (Thrown e, w') => handler e w'
    end.

Declare Scope m_scope.
Delimit Scope m_scope with m.
Notation "x <- m ;; k" := (bind m (fun x => k))
  (at level 61, m at next level, right associativity) : m_scope.
Notation "m ;; k" := (bind m (fun _ => k))
  (at level 61, right associativity) : m_scope.
Local Open Scope m_scope.

Definition get_env : M Env := fun w => (Returned (env w), w).

Definition get_clock : M Z := fun w => (Returned (clock w), w).

(** [console.error(...)] and [console.log(...)]: the line's fixed text. *)
Definition console_log (line : string) : M unit :=
  fun w => (Returned tt, log_console line w).

(** ** prisma.user *)

Module prisma.

Definition lookup_email (e : string) (us : list User.t) : option User.t :=
  find (fun u => User.email u =? e) us.

Definition lookup_id (i : string) (us : list User.t) : option User.t :=
  find (fun u => User.id u =? i) us.

Definition set_language (i : string) (language : string) (u : User.t) : User.t :=
  if User.id u =? i then
    {| User.id := User.id u; User.email := User.email u;
       User.passwordHash := User.passwordHash u; User.name := User.name u;
       User.userType := User.userType u; User.preferredLanguage := language;
       User.phoneNumber := User.phoneNumber u |}
  else u.

Definition new_row (i : string) (data : UserCreateInput.t) : User.t :=
  {| User.id := i;
     User.email := UserCreateInput.email data;
     User.passwordHash := UserCreateInput.passwordHash data;
     User.name := UserCreateInput.name data;
     User.userType := UserCreateInput.userType data;
     User.preferredLanguage := UserCreateInput.preferredLanguage data;
     User.phoneNumber := UserCreateInput.phoneNumber data |}.

(** [prisma.user.findUnique({ where: { email } })] *)
Definition findUnique_email (e : string) : M (option User.t) :=
  fun w => (Returned (lookup_email e (users w)), log_call (FindUniqueByEmail e) w).

(** [prisma.user.findUnique({ where: { id } })] *)
Definition findUnique_id (i : string) : M (option User.t) :=
  fun w => (Returned (lookup_id i (users w)), log_call (FindUniqueById i) w).

(** [prisma.user.create({ data })]: the e-mail column is unique, a second
    row with the same e-mail is refused (P2002). *)
Definition create `{Database} (data : UserCreateInput.t) : M User.t :=
  fun w =>
    let w1 := log_call (Create data) w in
    match lookup_email (UserCreateInput.email data) (users w) with
    | Some _ => (Thrown (PrismaException "P2002"), w1)
    | None =>
        let row := new_row (generate_id (users w)) data in
        (Returned row, set_users (users w ++ [row]) w1)
    end.

(** [prisma.user.update({ where: { id }, data: { preferredLanguage } })]:
    a missing row is an error (P2025). *)
Definition update (i : string) (language : string) : M unit :=
  fun w =>
    let w1 := log_call (Update i language) w in
    match lookup_id i (users w) with
    | None => (Thrown (PrismaException "P2025"), w1)
    | Some _ => (Returned tt, set_users (map (set_language i language) (users w)) w1)
    end.

End prisma.

(** ** The service *)

Section AuthService.

Context `{Zod} `{Bcrypt} `{Jwt} `{Database}.

(** *** UserRegistrationSchema

    The messages of the fields that fail, in the order of the schema's
    keys.  [phoneNumber: z.string().optional()] accepts every string and
    [undefined]: it never adds a message. *)
Definition UserRegistrationSchema_errors (userData : UserRegistrationData) : list string :=
  (if zod_is_email (email userData) then [] else ["Invalid email format"])
  ++ (if (8 <=? String.length (password userData))%nat then []
      else ["Password must be at least 8 characters"])
  ++ (if (2 <=? String.length (name userData))%nat then []
      else ["Name must be at least 2 characters"])
  ++ (if (2 <=? String.length (preferredLanguage userData))%nat then []
      else ["Language code must be at least 2 characters"])
  ++ (if (userType userData =? "VENDOR") || (userType userData =? "BUYER") then []
      else ["Invalid enum value. Expected 'VENDOR' | 'BUYER', received '"
              ++ userType userData ++ "'"]).

Inductive SafeParseResult : Type :=
| ParseSuccess
| ParseFailure (errors : list string).

(** [UserRegistrationSchema.safeParse(userData)] *)
Definition UserRegistrationSchema_safeParse (userData : UserRegistrationData)
  : SafeParseResult :=
  match UserRegistrationSchema_errors userData with
  | [] => ParseSuccess
  | errors => ParseFailure errors
  end.

(** *** Signing secrets *)

Definition default_jwt_secret : string := "test-secret-key-for-development".

Definition default_refresh_secret : string := "test-refresh-secret-key-for-development".

(** [process.env.JWT_SECRET || 'test-secret-key-for-development'] *)
Definition jwtSecret_of (e : Env) : string := Js.or_else (JWT_SECRET e) default_jwt_secret.

(** [process.env.JWT_REFRESH_SECRET || 'test-refresh-secret-key-for-development'] *)
Definition refreshSecret_of (e : Env) : string :=
  Js.or_else (JWT_REFRESH_SECRET e) default_refresh_secret.

(** [process.env.NODE_ENV === 'production'] *)
Definition is_production (e : Env) : bool :=
  match NODE_ENV e with
  | Some v => v =? "production"
  | None => false
  end.

(** [(!process.env.JWT_SECRET || !process.env.JWT_REFRESH_SECRET)
     && process.env.NODE_ENV === 'production'] *)
Definition secrets_missing_in_production (e : Env) : bool :=
  (negb (Js.truthy_opt (JWT_SECRET e)) || negb (Js.truthy_opt (JWT_REFRESH_SECRET e)))
  && is_production e.

(** ['15m'] and ['7d'] in seconds. *)
Definition expiresIn_15m : Z := 900.

Definition expiresIn_7d : Z := 604800.

(** [await bcrypt.hash(password, rounds)] *)
Definition hash_password (pw : string) (rounds : nat) : M string :=
  fun w => (Returned (bcrypt_hash pw rounds (entropy w)), next_entropy w).

(** [jwt.sign(payload, secret, { expiresIn })] *)
Definition sign (payload : JwtPayload.t) (secret : string) (expiresIn : Z) : M string :=
  now <- get_clock ;;
  ret (jwt_sign payload secret expiresIn now).

(** [jwt.verify(token, secret)], which throws what it finds wrong. *)
Definition verify (tok : string) (secret : string) : M JwtPayload.t :=
  now <- get_clock ;;
  match jwt_verify tok secret now with
  | Decoded payload => ret payload
  | VerifyError err => throw (JwtException err)
  end.

(** The [user] object of a successful result. *)
Definition user_object (u : User.t) : Js.object :=
  [ ("id", User.id u);
    ("email", User.email u);
    ("name", User.name u);
    ("userType", User.userType u);
    ("preferredLanguage", User.preferredLanguage u) ].

(** *** AuthService.register *)

Definition register_body (userData : UserRegistrationData) : M AuthResult :=
  match UserRegistrationSchema_safeParse userData with
  | ParseFailure errors =>
      ret (failure ("Invalid registration data: " ++ Js.join ", " errors))
  | ParseSuccess =>
      if (String.length (Js.trim (password userData)) <? 8)%nat then
        ret (failure "Password must contain at least 8 non-whitespace characters")
      else if (String.length (Js.trim (name userData)) <? 2)%nat then
        ret (failure "Name must contain at least 2 non-whitespace characters")
      else
        existingUser <- prisma.findUnique_email (email userData) ;;
        match existingUser with
        | Some _ => ret (failure "User with this email already exists")
        | None =>
            passwordHash <- hash_password (password userData) 12 ;;
            u <- prisma.create
                   {| UserCreateInput.email := email userData;
                      UserCreateInput.passwordHash := passwordHash;
                      UserCreateInput.name := name userData;
                      UserCreateInput.userType := userType userData;
                      UserCreateInput.preferredLanguage := preferredLanguage userData;
                      UserCreateInput.phoneNumber := phoneNumber userData |} ;;
            e <- get_env ;;
            let jwtSecret := jwtSecret_of e in
            let refreshSecret := refreshSecret_of e in
            if secrets_missing_in_production e then
              console_log
                "JWT_SECRET and JWT_REFRESH_SECRET environment variables are required in production" ;;
              ret (failure "Server configuration error")
            else
              tok <- sign {| JwtPayload.userId := User.id u;
                             JwtPayload.email := User.email u;
                             JwtPayload.type := None |}
                          jwtSecret expiresIn_15m ;;
              rtok <- sign {| JwtPayload.userId := User.id u;
                              JwtPayload.email := User.email u;
                              JwtPayload.type := Some "refresh" |}
                           refreshSecret expiresIn_7d ;;
              ret {| success := true;
                     user := Some (user_object u);
                     token := Some tok;
                     refreshToken := Some rtok;
                     error := None |}
        end
  end.

Definition AuthService_register (userData : UserRegistrationData)
  : World -> AuthResult * World :=
  try_catch_return (register_body userData)
    (fun _ w => (failure "Registration failed due to server error",
                 log_console "Registration error:" w)).

(** *** AuthService.refreshToken *)

(** [decoded.type === 'refresh'] *)
Definition is_refresh (p : JwtPayload.t) : bool :=
  match JwtPayload.type p with
  | Some t => t =? "refresh"
  | None => false
  end.

Definition refreshToken_body (tok : string) : M AuthResult :=
  e <- get_env ;;
  let refreshSecret := refreshSecret_of e in
  let jwtSecret := jwtSecret_of e in
  decoded <- verify tok refreshSecret ;;
  if negb (is_refresh decoded) then
    ret (failure "Invalid refresh token")
  else
    found <- prisma.findUnique_id (JwtPayload.userId decoded) ;;
    match found with
    | None => ret (failure "User not found")
    | Some u =>
        newToken <- sign {| JwtPayload.userId := User.id u;
                            JwtPayload.email := User.email u;
                            JwtPayload.type := None |}
                         jwtSecret expiresIn_15m ;;
        ret {| success := true;
               user := Some (user_object u);
               token := Some newToken;
               refreshToken := None;
               error := None |}
    end.

Definition AuthService_refreshToken (tok : string) : World -> AuthResult * World :=
  try_catch_return (refreshToken_body tok)
    (fun _ w => (failure "Invalid or expired refresh token",
                 log_console "Token refresh error:" w)).

(** *** AuthService.logout and AuthService.setLanguagePreference *)

Definition AuthService_logout (userId : string) : M unit :=
  try_catch (console_log ("User " ++ userId ++ " logged out"))
    (fun err => console_log "Logout error:" ;; throw err).

Definition AuthService_setLanguagePreference (userId language : string) : M unit :=
  try_catch (prisma.update userId language)
    (fun err => console_log "Language preference update error:" ;; throw err).

(** *** AuthService.login *)

Definition login_body (credentials : LoginCredentials.t) : M AuthResult :=
  let email := LoginCredentials.email credentials in
  let password := LoginCredentials.password credentials in
  found <- prisma.findUnique_email email ;;
  match found with
  | None => ret (failure "Invalid email or password")
  | Some u =>
      if negb (bcrypt_compare password (User.passwordHash u)) then
        ret (failure "Invalid email or password")
      else
        e <- get_env ;;
        let jwtSecret := jwtSecret_of e in
        let refreshSecret := refreshSecret_of e in
        if secrets_missing_in_production e then
          console_log
            "JWT_SECRET and JWT_REFRESH_SECRET environment variables are required in production" ;;
          ret (failure "Server configuration error")
        else
          tok <- sign {| JwtPayload.userId := User.id u;
                         JwtPayload.email := User.email u;
                         JwtPayload.type := None |}
                      jwtSecret expiresIn_15m ;;
          rtok <- sign {| JwtPayload.userId := User.id u;
                          JwtPayload.email := User.email u;
                          JwtPayload.type := Some "refresh" |}
                       refreshSecret expiresIn_7d ;;
          ret {| success := true;
                 user := Some (user_object u);
                 token := Some tok;
                 refreshToken := Some rtok;
                 error := None |}
  end.

Definition AuthService_login (credentials : LoginCredentials.t)
  : World -> AuthResult * World :=
  try_catch_return (login_body credentials)
    (fun _ w => (failure "Login failed due to server error",
                 log_console "Login error:" w)).

(** *** middleware/auth.ts *)

(** What the middleware does with a request: answer it, or attach the
    decoded claims as [req.user] and call [next()]. *)
Inductive MiddlewareResult : Type :=
| Respond (status : nat) (body : AuthResult)
| Next (reqUser : JwtPayload.t).

(** [authHeader && authHeader.split(' ')[1]]: [undefined] when the header
    is absent or has no second part, the header itself when it is ['']. *)
Definition bearer_token (authHeader : option string) : option string :=
  match authHeader with
  | None => None
  | Some h => if Js.truthy h then nth_error (Js.split " " h) 1 else Some h
  end.

Definition authenticateToken (authHeader : option string) (w : World) : MiddlewareResult :=
  let token := bearer_token authHeader in
  match token with
  | None => Respond 401 (failure "Access token required")
  | Some tok =>
      if negb (Js.truthy tok) then Respond 401 (failure "Access token required")
      else
        let jwtSecret := jwtSecret_of (env w) in
        match jwt_verify tok jwtSecret (clock w) with
        | VerifyError _ => Respond 403 (failure "Invalid or expired token")
        | Decoded decoded => Next decoded
        end
  end.

(** *** RegisterForm.tsx: the phone-number rule of the client form *)

(** The [phoneNumber] entry [validateForm] adds to its errors: set when the
    field is not empty and what is left of it after removing the
    non-digits is not ten digits. *)
Definition validateForm_phoneNumber (phone : string) : option string :=
  if Js.truthy phone && negb (Js.test_ten_digits (Js.strip_non_digits phone))
  then Some "Please enter a valid 10-digit phone number"
  else None.

(** The [phoneNumber] which [handleSubmit] sends. *)
Definition handleSubmit_phoneNumber (phone : string) : option string :=
  if Js.truthy phone then Some (Js.strip_non_digits phone) else None.

(** ** What a registration input must satisfy to get past validation *)

Definition passes_validation (userData : UserRegistrationData) : bool :=
  match UserRegistrationSchema_safeParse userData with
  | ParseSuccess =>
      negb (String.length (Js.trim (password userData)) <? 8)%nat
      && negb (String.length (Js.trim (name userData)) <? 2)%nat
  | ParseFailure _ => false
  end.

(** ** The three calls that answer with an [AuthResult] *)

Inductive AuthCall : Type :=
| CallRegister (userData : UserRegistrationData)
| CallLogin (credentials : LoginCredentials.t)
| CallRefreshToken (tok : string).

Definition run_call (c : AuthCall) : World -> AuthResult * World :=
  match c with
  | CallRegister userData => AuthService_register userData
  | CallLogin credentials => AuthService_login credentials
  | CallRefreshToken tok => AuthService_refreshToken tok
  end.

(** The write calls among the calls the storage collaborator received. *)
Definition writes (cs : list PrismaCall) : list PrismaCall := filter is_write cs.

(** [userData] with another [phoneNumber]. *)
Definition with_phoneNumber (p : option string) (userData : UserRegistrationData)
  : UserRegistrationData :=
  {| email := email userData; password := password userData; name := name userData;
     preferredLanguage := preferredLanguage userData; userType := userType userData;
     phoneNumber := p |}.

End AuthService.

(** ** Sample instances of the third-party code, and sample data

    Small executable stand-ins, used to run the service on concrete inputs. *)

Module Sample.

(** Has an [@] that is neither first nor last. *)
Definition is_email (s : string) : bool :=
  match Js.split "@" s with
  | [l; d] => Js.truthy l && Js.truthy d
  | _ => false
  end.

Definition zod : Zod := {| zod_is_email := is_email |}.

Definition nat_to_string (n : nat) : string := NilZero.string_of_uint (Nat.to_uint n).

Definition Z_to_string (z : Z) : string := NilZero.string_of_int (Z.to_int z).

Definition Z_of_string (s : string) : option Z := option_map Z.of_int (NilZero.int_of_string s).

Definition hash (pw : string) (rounds salt : nat) : string :=
  "$2a$" ++ nat_to_string rounds ++ "$" ++ nat_to_string salt ++ "$" ++ pw.

(** The password is what follows the third [$] of the hash. *)
Definition compare (pw h : string) : bool :=
  match Js.split "$" h with
  | _ :: _ :: _ :: _ :: rest => Js.join "$" rest =? pw
  | _ => false
  end.

Definition bcrypt : Bcrypt := {| bcrypt_hash := hash; bcrypt_compare := compare |}.

(** A token is [secret|userId|email|type|exp]. *)
Definition sign (p : JwtPayload.t) (secret : string) (expiresIn now : Z) : string :=
  Js.join "|"
    [ secret; JwtPayload.userId p; JwtPayload.email p;
      match JwtPayload.type p with Some t => t | None => "" end;
      Z_to_string (now + expiresIn) ].

Definition verify (tok secret : string) (now : Z) : VerifyResult :=
  match Js.split "|" tok with
  | [s; uid; em; ty; ex] =>
      if s =? secret then
        match Z_of_string ex with
        | Some exp =>
            if (exp <=? now)%Z then VerifyError TokenExpiredError
            else Decoded {| JwtPayload.userId := uid; JwtPayload.email := em;
                            JwtPayload.type := if ty =? "" then None else Some ty |}
        | None => VerifyError JsonWebTokenError
        end
      else VerifyError JsonWebTokenError
  | _ => VerifyError JsonWebTokenError
  end.

Definition jwt : Jwt := {| jwt_sign := sign; jwt_verify := verify |}.

Definition database : Database :=
  {| generate_id := fun us => "user-" ++ nat_to_string (List.length us) |}.

(** Environments: development with nothing set, production with no
    secret set, production with both secrets set. *)
Definition development : Env :=
  {| JWT_SECRET := None; JWT_REFRESH_SECRET := None; NODE_ENV := Some "development" |}.

Definition production_unconfigured : Env :=
  {| JWT_SECRET := None; JWT_REFRESH_SECRET := None; NODE_ENV := Some "production" |}.

Definition production_configured : Env :=
  {| JWT_SECRET := Some "s3cret-A"; JWT_REFRESH_SECRET := Some "s3cret-R";
     NODE_ENV := Some "production" |}.

Definition world (e : Env) (us : list User.t) : World :=
  {| env := e; users := us; calls := []; console := []; clock := 1700000000; entropy := 7 |}.

(** The registration of the spec's example. *)
Definition ann : UserRegistrationData :=
  {| email := "a@test.io"; password := "password123"; name := "Ann";
     preferredLanguage := "hi"; userType := "BUYER"; phoneNumber := None |}.

(** A user already stored, with the password [password123]. *)
Definition stored_ann : User.t :=
  {| User.id := "user-0"; User.email := "a@test.io";
     User.passwordHash := hash "password123" 12 7; User.name := "Ann";
     User.userType := "BUYER"; User.preferredLanguage := "hi"; User.phoneNumber := None |}.

(** Ann again, with a password of five characters. *)
Definition ann_short_password : UserRegistrationData :=
  {| email := "a@test.io"; password := "short"; name := "Ann";
     preferredLanguage := "hi"; userType := "BUYER"; phoneNumber := None |}.

(** Ann again, with a password of eight characters of which four are
    spaces in the middle. *)
Definition ann_spaced_password : UserRegistrationData :=
  {| email := "a@test.io"; password := "ab    cd"; name := "Ann";
     preferredLanguage := "hi"; userType := "BUYER"; phoneNumber := None |}.

Definition ann_login : LoginCredentials.t :=
  {| LoginCredentials.email := "a@test.io"; LoginCredentials.password := "password123" |}.

Definition ann_wrong_login : LoginCredentials.t :=
  {| LoginCredentials.email := "a@test.io"; LoginCredentials.password := "wrong" |}.

Definition nobody_login : LoginCredentials.t :=
  {| LoginCredentials.email := "nobody@test.io"; LoginCredentials.password := "password123" |}.

Definition claims_of (uid : string) (ty : option string) : JwtPayload.t :=
  {| JwtPayload.userId := uid; JwtPayload.email := "a@test.io"; JwtPayload.type := ty |}.

(** Tokens signed with the development secrets at the sample world's
    time, and one signed long before it. *)
Definition ann_refresh_token : string :=
  sign (claims_of "user-0" (Some "refresh")) "test-refresh-secret-key-for-development"
       604800 1700000000.

Definition ann_access_token : string :=
  sign (claims_of "user-0" None) "test-secret-key-for-development" 900 1700000000.

Definition ann_expired_refresh_token : string :=
  sign (claims_of "user-0" (Some "refresh")) "test-refresh-secret-key-for-development"
       604800 1600000000.

Definition untyped_token_under_refresh_secret : string :=
  sign (claims_of "user-0" None) "test-refresh-secret-key-for-development" 900 1700000000.

Definition ghost_refresh_token : string :=
  sign (claims_of "user-9" (Some "refresh")) "test-refresh-secret-key-for-development"
       604800 1700000000.

End Sample.

(** ** routes/auth.ts: the HTTP handlers *)

(** What [res.status(s).json(body)] sends.  A body is an [AuthResult]
    (which covers [{ success: false, error }]) or [{ success, message }]. *)
Inductive ResponseBody : Type :=
| JsonResult (result : AuthResult)
| JsonMessage (ok : bool) (message : string).

Record Response : Type := { status : nat; body : ResponseBody }.

Definition respond (s : nat) (b : ResponseBody) : Response := {| status := s; body := b |}.

(** The [success] property of a body. *)
Definition body_success (b : ResponseBody) : bool :=
  match b with
  | JsonResult r => success r
  | JsonMessage ok _ => ok
  end.

(** [const { email, password } = req.body]: a property may be missing. *)
Module LoginBody.
Record t : Type := { email : option string; password : option string }.
End LoginBody.

(** [await m(...)] for a method that always returns. *)
Definition await {A : Type} (f : World -> A * World) : M A :=
  fun w => let (a, w') := f w in (Returned a, w').

Section Routes.

Context `{Zod} `{Bcrypt} `{Jwt} `{Database}.

(** [router.post('/register', ...)] *)
Definition route_register (reqBody : UserRegistrationData) : World -> Response * World :=
  try_catch_return
    (match UserRegistrationSchema_safeParse reqBody with
     | ParseFailure errors =>
         ret (respond 400
                (JsonResult (failure ("Invalid registration data: " ++ Js.join ", " errors))))
     | ParseSuccess =>
         result <- await (AuthService_register reqBody) ;;
         if success result then ret (respond 201 (JsonResult result))
         else ret (respond 400 (JsonResult result))
     end)
    (fun _ w => (respond 500 (JsonResult (failure "Internal server error")),
                 log_console "Registration endpoint error:" w)).

(** [router.post('/login', ...)] *)
Definition route_login (reqBody : LoginBody.t) : World -> Response * World :=
  try_catch_return
    (match LoginBody.email reqBody, LoginBody.password reqBody with
     | Some email, Some password =>
         if negb (Js.truthy email) || negb (Js.truthy password) then
           ret (respond 400 (JsonResult (failure "Email and password are required")))
         else
           result <- await (AuthService_login
                              {| LoginCredentials.email := email;
                                 LoginCredentials.password := password |}) ;;
           if success result then ret (respond 200 (JsonResult result))
           else ret (respond 401 (JsonResult result))
     | _, _ => ret (respond 400 (JsonResult (failure "Email and password are required")))
     end)
    (fun _ w => (respond 500 (JsonResult (failure "Internal server error")),
                 log_console "Login endpoint error:" w)).


(** [router.post('/logout', authenticateToken, ...)]: the middleware
    answers, or hands [req.user] to the handler. *)
Definition route_logout (authHeader : option string) : World -> Response * World :=
  fun w =>
    match authenticateToken authHeader w with
    | Respond s b => (respond s (JsonResult b), w)
    | Next reqUser =>
        try_catch_return
          (let userId := JwtPayload.userId reqUser in
           if negb (Js.truthy userId) then
             ret (respond 400 (JsonResult (failure "User ID not found in token")))
           else
             AuthService_logout userId ;;
             ret (respond 200 (JsonMessage true "Logged out successfully")))
          (fun _ w' => (respond 500 (JsonResult (failure "Internal server error")),
                        log_console "Logout endpoint error:" w'))
          w
    end.

(** [router.put('/language', authenticateToken, ...)]; [bodyLanguage] is
    [req.body.language]. *)
Definition route_language (authHeader : option string) (bodyLanguage : option string)
  : World -> Response * World :=
  fun w =>
    match authenticateToken authHeader w with
    | Respond s b => (respond s (JsonResult b), w)
    | Next reqUser =>
        try_catch_return
          (let userId := JwtPayload.userId reqUser in
           if negb (Js.truthy userId) then
             ret (respond 400 (JsonResult (failure "User ID not found in token")))
           else
             match bodyLanguage with
             | Some language =>
                 if negb (Js.truthy language) || (String.length language <? 2)%nat then
                   ret (respond 400 (JsonResult (failure "Valid language code is required")))
                 else
                   AuthService_setLanguagePreference userId language ;;
                   ret (respond 200
                          (JsonMessage true "Language preference updated successfully"))
             | None =>
                 ret (respond 400 (JsonResult (failure "Valid language code is required")))
             end)
          (fun _ w' => (respond 500 (JsonResult (failure "Internal server error")),
                        log_console "Language preference update endpoint error:" w'))
          w
    end.

End Routes.

(** ** The client: RegisterForm.tsx, AuthContext.tsx and api.ts *)

(** [c] occurs in [s]. *)
Fixpoint has_char (c : ascii) (s : string) : bool :=
  match s with
  | EmptyString => false
  | String d r => Ascii.eqb d c || has_char c r
  end.

Module RegisterForm.

(** The form's state: every field is a string, [phoneNumber] too. *)
Record FormData : Type := {
  email : string;
  password : string;
  name : string;
  preferredLanguage : string;
  userType : string;
  phoneNumber : string
}.

(** The longest prefix without white space. *)
Fixpoint non_space_run (s : string) : string :=
  match s with
  | EmptyString => EmptyString
  | String c r => if Js.is_white_space c then EmptyString else String c (non_space_run r)
  end.

(** [s] holds a dot with a character after it. *)
Fixpoint dot_then_more (s : string) : bool :=
  match s with
  | EmptyString => false
  | String c r =>
      (Ascii.eqb c "." && negb (String.length r =? 0)%nat) || dot_then_more r
  end.

(** What may follow the [@] for [\S+\.\S+] to match there: in the run of
    non-space characters, a dot that is not first and not last. *)
Definition domain_matches (after_at : string) : bool :=
  match non_space_run after_at with
  | EmptyString => false
  | String _ r => dot_then_more r
  end.

(** The search for [\S+@\S+\.\S+]; [prev] tells whether the character
    before is a non-space one. *)
Fixpoint email_search (prev : bool) (s : string) : bool :=
  match s with
  | EmptyString => false
  | String c r =>
      (prev && Ascii.eqb c "@" && domain_matches r)
      || email_search (negb (Js.is_white_space c)) r
  end.

(** [/\S+@\S+\.\S+/.test(s)] *)
Definition email_shape (s : string) : bool := email_search false s.

(** [validateForm]'s [newErrors], keys in the order they are set. *)
Definition newErrors (formData : FormData) (confirmPassword : string) : Js.object :=
  ((if negb (Js.truthy (Js.trim (name formData))) then [("name", "Name is required")]
    else if (String.length (Js.trim (name formData)) <? 2)%nat
         then [("name", "Name must be at least 2 characters")]
         else [])
   ++ (if negb (Js.truthy (email formData)) then [("email", "Email is required")]
       else if negb (email_shape (email formData))
            then [("email", "Please enter a valid email address")]
            else [])
   ++ (if negb (Js.truthy (password formData)) then [("password", "Password is required")]
       else if (String.length (password formData) <? 8)%nat
            then [("password", "Password must be at least 8 characters")]
            else [])
   ++ (if negb (Js.truthy confirmPassword)
       then [("confirmPassword", "Please confirm your password")]
       else if negb (password formData =? confirmPassword)
            then [("confirmPassword", "Passwords do not match")]
            else [])
   ++ (if negb (Js.truthy (preferredLanguage formData))
       then [("preferredLanguage", "Please select a preferred language")]
       else [])
   ++ (if negb (Js.truthy (userType formData))
       then [("userTypeError", "Please select your account type")]
       else [])
   ++ (match validateForm_phoneNumber (phoneNumber formData) with
       | Some msg => [("phoneNumber", msg)]
       | None => []
       end))%list.

(** [validateForm()]: [Object.keys(newErrors).length === 0] *)
Definition validateForm (formData : FormData) (confirmPassword : string) : bool :=
  (List.length (Js.keys (newErrors formData confirmPassword)) =? 0)%nat.

(** What [handleSubmit] passes to [register]: nothing when the form is
    refused, else the form's data with the phone number cleaned. *)
Definition handleSubmit (formData : FormData) (confirmPassword : string)
  : option UserRegistrationData :=
  if negb (validateForm formData confirmPassword) then None
  else
    Some (Build_UserRegistrationData
            (email formData) (password formData) (name formData)
            (preferredLanguage formData) (userType formData)
            (handleSubmit_phoneNumber (phoneNumber formData))).

End RegisterForm.

(** JSON, as far as the client uses it. *)
Class Json : Type := {
  JSON_stringify : Js.object -> string;
  JSON_parse : string -> option Js.object
}.

(** [o] with the property [k] set to [v]: in place when [o] has it, at
    the end otherwise.  This is [localStorage.setItem(k, v)] on a store
    and [{ ...o, [k]: v }] on an object. *)
Fixpoint set_property (k v : string) (o : Js.object) : Js.object :=
  match o with
  | [] => [(k, v)]
  | (k', v') :: r => if k' =? k then (k, v) :: r else (k', v') :: set_property k v r
  end.

(** [localStorage.removeItem(k)] *)
Definition remove_property (k : string) (o : Js.object) : Js.object :=
  filter (fun kv => negb (fst kv =? k)) o.

(** api.ts, the request interceptor: the [Authorization] header it puts on
    a request, if any. *)
Definition request_interceptor (localStorage : Js.object) : option string :=
  match Js.get "authToken" localStorage with
  | Some tok => if Js.truthy tok then Some ("Bearer " ++ tok) else None
  | None => None
  end.

Module AuthContext.

(** The provider's state, with the browser's [localStorage] and console. *)
Record State : Type := {
  user : option Js.object;
  isLoading : bool;
  localStorage : Js.object;
  console : list string
}.

(** How an awaited call to the API ended. *)
Inductive Settled (A : Type) : Type :=
| Fulfilled (a : A)
| Rejected.

Arguments Fulfilled {A} a.
Arguments Rejected {A}.

Definition setUser (u : option Js.object) (st : State) : State :=
  {| user := u; isLoading := isLoading st; localStorage := localStorage st;
     console := console st |}.

Definition setIsLoading (b : bool) (st : State) : State :=
  {| user := user st; isLoading := b; localStorage := localStorage st;
     console := console st |}.

Definition setItem (k v : string) (st : State) : State :=
  {| user := user st; isLoading := isLoading st;
     localStorage := set_property k v (localStorage st); console := console st |}.

Definition removeItem (k : string) (st : State) : State :=
  {| user := user st; isLoading := isLoading st;
     localStorage := remove_property k (localStorage st); console := console st |}.

Definition console_error (line : string) (st : State) : State :=
  {| user := user st; isLoading := isLoading st; localStorage := localStorage st;
     console := (console st ++ [line])%list |}.

Section WithJson.

Context `{Json}.

(** The effect run when the provider mounts. *)
Definition mount (st : State) : State :=
  let st1 :=
    match Js.get "authToken" (localStorage st), Js.get "userData" (localStorage st) with
    | Some tok, Some userData =>
        if Js.truthy tok && Js.truthy userData then
          match JSON_parse userData with
          | Some parsedUser => setUser (Some parsedUser) st
          | None =>
              removeItem "userData"
                (removeItem "refreshToken"
                   (removeItem "authToken"
                      (console_error "Error parsing stored user data:" st)))
          end
        else st
    | _, _ => st
    end in
  setIsLoading false st1.

(** The body of [login] and of [register] after the API has answered:
    [if (result.success && result.user && result.token) { ... }]. *)
Definition store_session (result : AuthResult) (st : State) : State :=
  let 'Build_AuthResult ok resultUser resultToken resultRefreshToken _ := result in
  match ok, resultUser, resultToken with
  | true, Some u, Some tok =>
      if Js.truthy tok then
        let st1 := setUser (Some u) st in
        let st2 := setItem "authToken" tok st1 in
        let st3 := setItem "userData" (JSON_stringify u) st2 in
        match resultRefreshToken with
        | Some rtok => if Js.truthy rtok then setItem "refreshToken" rtok st3 else st3
        | None => st3
        end
      else st
  | _, _, _ => st
  end.

(** [login(credentials)], given how [authAPI.login(credentials)] ended. *)
Definition login (answer : Settled AuthResult) (st : State) : State * Settled AuthResult :=
  let st1 := setIsLoading true st in
  match answer with
  | Fulfilled result => (setIsLoading false (store_session result st1), Fulfilled result)
  | Rejected => (setIsLoading false st1, Rejected)
  end.


(** [logout()], given how [authAPI.logout()] ended. *)
Definition logout {A : Type} (answer : Settled A) (st : State) : State :=
  let st1 := setIsLoading true st in
  let st2 := match answer with
             | Fulfilled _ => st1
             | Rejected => console_error "Logout error:" st1
             end in
  setIsLoading false
    (removeItem "userData"
       (removeItem "refreshToken"
          (removeItem "authToken" (setUser None st2)))).


(** [isAuthenticated: !!user] *)
Definition isAuthenticated (st : State) : bool :=
  match user st with
  | Some _ => true
  | None => false
  end.

End WithJson.

End AuthContext.

(** ** Sample client data *)

Module SampleClient.

(** A serialization good enough to run the client: [k=v] joined by [&]. *)
Definition stringify (o : Js.object) : string :=
  Js.join "&" (map (fun kv => fst kv ++ "=" ++ snd kv) o).

Fixpoint parse_pairs (parts : list string) : option Js.object :=
  match parts with
  | [] => Some []
  | p :: r =>
      match Js.split "=" p with
      | [k; v] => option_map (cons (k, v)) (parse_pairs r)
      | _ => None
      end
  end.

Definition parse (s : string) : option Js.object := parse_pairs (Js.split "&" s).

Definition json : Json := {| JSON_stringify := stringify; JSON_parse := parse |}.

Definition ann_form : RegisterForm.FormData :=
  {| RegisterForm.email := "a@test.io"; RegisterForm.password := "password123";
     RegisterForm.name := "Ann"; RegisterForm.preferredLanguage := "hi";
     RegisterForm.userType := "BUYER"; RegisterForm.phoneNumber := "98765-43210" |}.

Definition ann_object : Js.object :=
  [("id", "user-0"); ("email", "a@test.io"); ("name", "Ann"); ("userType", "BUYER");
   ("preferredLanguage", "hi")].

Definition signed_out : AuthContext.State :=
  {| AuthContext.user := None; AuthContext.isLoading := false;
     AuthContext.localStorage := []; AuthContext.console := [] |}.

Definition signed_in : AuthContext.State :=
  {| AuthContext.user := Some ann_object; AuthContext.isLoading := false;
     AuthContext.localStorage :=
       [("authToken", Sample.ann_access_token);
        ("userData", stringify ann_object);
        ("refreshToken", Sample.ann_refresh_token)];
     AuthContext.console := [] |}.

(** A page reloaded with user data that does not parse. *)
Definition reloaded_corrupt : AuthContext.State :=
  {| AuthContext.user := None; AuthContext.isLoading := true;
     AuthContext.localStorage := [("authToken", "t0ken"); ("userData", "garbage")];
     AuthContext.console := [] |}.

(** Two stored users with different e-mails. *)
Definition stored_bob : User.t :=
  {| User.id := "user-1"; User.email := "b@test.io";
     User.passwordHash := Sample.hash "hunter2hunter2" 12 8; User.name := "Bob";
     User.userType := "VENDOR"; User.preferredLanguage := "en";
     User.phoneNumber := Some "9876543210" |}.

Definition two_users : World :=
  Sample.world Sample.development [Sample.stored_ann; stored_bob].

End SampleClient.

(** * Properties *)

Section Properties.

Context `{Zod} `{Bcrypt} `{Jwt} `{Database}.

(** ** Validation *)

Lemma passes_validation_inv (userData : UserRegistrationData) :
  passes_validation userData = true ->
  UserRegistrationSchema_safeParse userData = ParseSuccess
  /\ (String.length (Js.trim (password userData)) <? 8)%nat = false
  /\ (String.length (Js.trim (name userData)) <? 2)%nat = false.
Proof.
  unfold passes_validation.
  destruct (UserRegistrationSchema_safeParse userData); [| discriminate].
  intros Hv. apply andb_true_iff in Hv as [Hp Hn].
  apply negb_true_iff in Hp, Hn. auto.
Qed.

Lemma short_password_is_refused_by_schema (userData : UserRegistrationData) :
  String.length (password userData) < 8 ->
  exists errors,
    UserRegistrationSchema_safeParse userData = ParseFailure errors
    /\ In "Password must be at least 8 characters" errors.
Proof.
  intros Hlen.
  unfold UserRegistrationSchema_safeParse.
  assert (Hin : In "Password must be at least 8 characters"
                   (UserRegistrationSchema_errors userData)).
  { unfold UserRegistrationSchema_errors.
    apply in_or_app. right. apply in_or_app. left.
    destruct (Nat.leb_spec 8 (String.length (password userData))); [lia | now left]. }
  destruct (UserRegistrationSchema_errors userData) as [| e es] eqn:E.
  - destruct Hin.
  - exists (e :: es). auto.
Qed.

(** ** The storage: lookups after an insertion *)

Lemma lookup_email_app (e : string) (us : list User.t) (row : User.t) :
  prisma.lookup_email e us = None ->
  User.email row = e ->
  prisma.lookup_email e (us ++ [row]) = Some row.
Proof.
  unfold prisma.lookup_email. intros Hnone Hrow.
  induction us as [| u us IH]; simpl in *.
  - rewrite Hrow, String.eqb_refl. reflexivity.
  - destruct (User.email u =? e); [discriminate | auto].
Qed.

Lemma writes_app (cs ds : list PrismaCall) : writes (cs ++ ds) = (writes cs ++ writes ds)%list.
Proof. unfold writes. apply filter_app. Qed.

(** ** Registration *)

(** What [register] does once validation has passed and the e-mail is free:
    one lookup, one hash, one insertion, then the configuration test. *)
Lemma register_valid_new_email (userData : UserRegistrationData) (w : World) :
  passes_validation userData = true ->
  prisma.lookup_email (email userData) (users w) = None ->
  let data :=
    {| UserCreateInput.email := email userData;
       UserCreateInput.passwordHash := bcrypt_hash (password userData) 12 (entropy w);
       UserCreateInput.name := name userData;
       UserCreateInput.userType := userType userData;
       UserCreateInput.preferredLanguage := preferredLanguage userData;
       UserCreateInput.phoneNumber := phoneNumber userData |} in
  let row := prisma.new_row (generate_id (users w)) data in
  let stored (cons : list string) : World :=
    {| env := env w; users := users w ++ [row];
       calls := (calls w ++ [FindUniqueByEmail (email userData)]) ++ [Create data];
       console := console w ++ cons; clock := clock w; entropy := S (entropy w) |} in
  AuthService_register userData w =
    if secrets_missing_in_production (env w) then
      (failure "Server configuration error",
       stored ["JWT_SECRET and JWT_REFRESH_SECRET environment variables are required in production"])
    else
      ({| success := true;
          user := Some (user_object row);
          token := Some (jwt_sign {| JwtPayload.userId := User.id row;
                                     JwtPayload.email := User.email row;
                                     JwtPayload.type := None |}
                                  (jwtSecret_of (env w)) expiresIn_15m (clock w));
          refreshToken := Some (jwt_sign {| JwtPayload.userId := User.id row;
                                            JwtPayload.email := User.email row;
                                            JwtPayload.type := Some "refresh" |}
                                         (refreshSecret_of (env w)) expiresIn_7d (clock w));
          error := None |},
       stored []).
Proof.
  intros Hv Hfree. apply passes_validation_inv in Hv as (Hs & Hp & Hn).
  unfold AuthService_register, try_catch_return, register_body.
  rewrite Hs, Hp, Hn.
  unfold bind, prisma.findUnique_email, hash_password, prisma.create, get_env,
    console_log, sign, get_clock, ret.
  cbn [users log_call next_entropy env entropy]. rewrite Hfree.
  cbn [users log_call next_entropy env entropy UserCreateInput.email]. rewrite Hfree.
  cbn [set_users log_call next_entropy env].
  destruct (secrets_missing_in_production (env w)); cbn.
  - reflexivity.
  - rewrite app_nil_r. reflexivity.
Qed.

(** An input that fails validation is answered at once: the world is not
    touched. *)
Lemma register_invalid (userData : UserRegistrationData) (w : World) :
  passes_validation userData = false ->
  exists msg, AuthService_register userData w = (failure msg, w).
Proof.
  unfold passes_validation, AuthService_register, try_catch_return, register_body.
  destruct (UserRegistrationSchema_safeParse userData) as [| errors].
  - intros Hv.
    destruct (String.length (Js.trim (password userData)) <? 8)%nat; [eexists; reflexivity |].
    destruct (String.length (Js.trim (name userData)) <? 2)%nat; [eexists; reflexivity |].
    discriminate.
  - intros _. eexists. reflexivity.
Qed.

(** A valid input whose e-mail is taken: one lookup, then the refusal. *)
Lemma register_valid_taken_email (userData : UserRegistrationData) (w : World)
    (existing : User.t) :
  passes_validation userData = true ->
  prisma.lookup_email (email userData) (users w) = Some existing ->
  AuthService_register userData w =
    (failure "User with this email already exists",
     log_call (FindUniqueByEmail (email userData)) w).
Proof.
  intros Hv Htaken. apply passes_validation_inv in Hv as (Hs & Hp & Hn).
  unfold AuthService_register, try_catch_return, register_body.
  rewrite Hs, Hp, Hn.
  unfold bind, prisma.findUnique_email, ret. rewrite Htaken. reflexivity.
Qed.

(** C6: a registration whose password has fewer than 8 characters fails,
    and the storage collaborator receives no call at all (so neither a
    create nor an update): the users table and the list of calls it
    received are what they were. *)
Theorem register_short_password_writes_nothing
    (userData : UserRegistrationData) (w : World) :
  String.length (password userData) < 8 ->
  success (fst (AuthService_register userData w)) = false
  /\ error (fst (AuthService_register userData w)) <> None
  /\ calls (snd (AuthService_register userData w)) = calls w
  /\ users (snd (AuthService_register userData w)) = users w.
Proof.
  intros Hlen.
  destruct (short_password_is_refused_by_schema userData Hlen) as (errors & Hparse & _).
  assert (Hv : passes_validation userData = false).
  { unfold passes_validation. rewrite Hparse. reflexivity. }
  destruct (register_invalid userData w Hv) as (msg & ->).
  cbn. repeat split; congruence.
Qed.

(** C1 (amended): a registration that passes validation, whose e-mail is
    not stored yet, in a deployment that is not a production one lacking a
    signing secret, succeeds: the returned user carries the submitted
    e-mail, name, userType and preferredLanguage, and an access token and
    a refresh token, signed now for the new user, are both present. *)
Theorem register_valid_input_succeeds (userData : UserRegistrationData) (w : World) :
  passes_validation userData = true ->
  prisma.lookup_email (email userData) (users w) = None ->
  secrets_missing_in_production (env w) = false ->
  exists (u : Js.object) (newId : string),
    fst (AuthService_register userData w) =
      {| success := true;
         user := Some u;
         token := Some (jwt_sign {| JwtPayload.userId := newId;
                                    JwtPayload.email := email userData;
                                    JwtPayload.type := None |}
                                 (jwtSecret_of (env w)) expiresIn_15m (clock w));
         refreshToken := Some (jwt_sign {| JwtPayload.userId := newId;
                                           JwtPayload.email := email userData;
                                           JwtPayload.type := Some "refresh" |}
                                        (refreshSecret_of (env w)) expiresIn_7d (clock w));
         error := None |}
    /\ Js.get "id" u = Some newId
    /\ Js.get "email" u = Some (email userData)
    /\ Js.get "name" u = Some (name userData)
    /\ Js.get "userType" u = Some (userType userData)
    /\ Js.get "preferredLanguage" u = Some (preferredLanguage userData).
Proof.
  intros Hv Hfree Hconf.
  rewrite (register_valid_new_email userData w Hv Hfree). cbv zeta. rewrite Hconf.
  eexists. exists (generate_id (users w)).
  split; [reflexivity |]. cbn. auto 6.
Qed.

(** C10: in production with JWT_SECRET or JWT_REFRESH_SECRET unset, a
    valid registration with a new e-mail first looks the e-mail up, then
    creates the user through the storage collaborator, and only then
    answers with the configuration error; the created row, with the
    submitted e-mail, is still stored when the failure is reported. *)
Theorem register_unconfigured_production_keeps_the_row
    (userData : UserRegistrationData) (w : World) :
  passes_validation userData = true ->
  prisma.lookup_email (email userData) (users w) = None ->
  NODE_ENV (env w) = Some "production" ->
  JWT_SECRET (env w) = None \/ JWT_REFRESH_SECRET (env w) = None ->
  exists (data : UserCreateInput.t) (row : User.t),
    fst (AuthService_register userData w) = failure "Server configuration error"
    /\ calls (snd (AuthService_register userData w)) =
         (calls w ++ [FindUniqueByEmail (email userData); Create data])%list
    /\ UserCreateInput.email data = email userData
    /\ users (snd (AuthService_register userData w)) = (users w ++ [row])%list
    /\ row = prisma.new_row (generate_id (users w)) data
    /\ prisma.lookup_email (email userData) (users (snd (AuthService_register userData w)))
       = Some row.
Proof.
  intros Hv Hfree Hprod Hunset.
  assert (Hmiss : secrets_missing_in_production (env w) = true).
  { unfold secrets_missing_in_production, is_production. rewrite Hprod.
    destruct Hunset as [-> | ->]; cbn; [| rewrite orb_true_r]; reflexivity. }
  rewrite (register_valid_new_email userData w Hv Hfree). cbv zeta. rewrite Hmiss.
  do 2 eexists. cbn [fst snd calls users].
  split; [reflexivity |].
  split; [rewrite <- app_assoc; reflexivity |].
  split; [reflexivity |].
  split; [reflexivity |].
  split; [reflexivity |].
  apply lookup_email_app; [exact Hfree | reflexivity].
Qed.

(** C7 (amended): a registration whose e-mail is already stored fails,
    whatever else it holds; no create (and no other write) reaches the
    storage collaborator and the users table is unchanged, so no second
    row exists.  When the input passes validation the failure is the
    duplicate-e-mail error. *)
Theorem register_taken_email_creates_nothing
    (userData : UserRegistrationData) (w : World) (existing : User.t) :
  prisma.lookup_email (email userData) (users w) = Some existing ->
  success (fst (AuthService_register userData w)) = false
  /\ writes (calls (snd (AuthService_register userData w))) = writes (calls w)
  /\ users (snd (AuthService_register userData w)) = users w
  /\ (passes_validation userData = true ->
      fst (AuthService_register userData w) = failure "User with this email already exists").
Proof.
  intros Htaken.
  destruct (passes_validation userData) eqn:Hv.
  - rewrite (register_valid_taken_email userData w existing Hv Htaken).
    cbn [fst snd log_call calls users].
    rewrite writes_app. cbn. rewrite app_nil_r. auto.
  - destruct (register_invalid userData w Hv) as (msg & ->).
    cbn. repeat split; congruence.
Qed.

(** The answer of [register] is a failure with a message, or the success
    object built from a stored row. *)
Lemma register_result_shape (userData : UserRegistrationData) (w : World) :
  (exists msg, fst (AuthService_register userData w) = failure msg)
  \/ (exists (u : User.t) (tok rtok : string),
        fst (AuthService_register userData w) =
          {| success := true; user := Some (user_object u); token := Some tok;
             refreshToken := Some rtok; error := None |}).
Proof.
  destruct (passes_validation userData) eqn:Hv.
  - destruct (prisma.lookup_email (email userData) (users w)) as [existing |] eqn:Hl.
    + left. rewrite (register_valid_taken_email userData w existing Hv Hl).
      eexists. reflexivity.
    + rewrite (register_valid_new_email userData w Hv Hl). cbv zeta.
      destruct (secrets_missing_in_production (env w)); cbn [fst];
        [left; eexists | right; do 3 eexists]; reflexivity.
  - left. destruct (register_invalid userData w Hv) as (msg & ->).
    eexists. reflexivity.
Qed.

(** ** Login *)

Lemma login_unknown_email (credentials : LoginCredentials.t) (w : World) :
  prisma.lookup_email (LoginCredentials.email credentials) (users w) = None ->
  AuthService_login credentials w =
    (failure "Invalid email or password",
     log_call (FindUniqueByEmail (LoginCredentials.email credentials)) w).
Proof.
  intros Hl. unfold AuthService_login, try_catch_return, login_body.
  unfold bind, prisma.findUnique_email, ret. rewrite Hl. reflexivity.
Qed.

Lemma login_wrong_password (credentials : LoginCredentials.t) (w : World) (u : User.t) :
  prisma.lookup_email (LoginCredentials.email credentials) (users w) = Some u ->
  bcrypt_compare (LoginCredentials.password credentials) (User.passwordHash u) = false ->
  AuthService_login credentials w =
    (failure "Invalid email or password",
     log_call (FindUniqueByEmail (LoginCredentials.email credentials)) w).
Proof.
  intros Hl Hc. unfold AuthService_login, try_catch_return, login_body.
  unfold bind, prisma.findUnique_email, ret. rewrite Hl, Hc. reflexivity.
Qed.

Lemma login_right_password (credentials : LoginCredentials.t) (w : World) (u : User.t) :
  prisma.lookup_email (LoginCredentials.email credentials) (users w) = Some u ->
  bcrypt_compare (LoginCredentials.password credentials) (User.passwordHash u) = true ->
  fst (AuthService_login credentials w) =
    if secrets_missing_in_production (env w) then failure "Server configuration error"
    else
      {| success := true;
         user := Some (user_object u);
         token := Some (jwt_sign {| JwtPayload.userId := User.id u;
                                    JwtPayload.email := User.email u;
                                    JwtPayload.type := None |}
                                 (jwtSecret_of (env w)) expiresIn_15m (clock w));
         refreshToken := Some (jwt_sign {| JwtPayload.userId := User.id u;
                                           JwtPayload.email := User.email u;
                                           JwtPayload.type := Some "refresh" |}
                                        (refreshSecret_of (env w)) expiresIn_7d (clock w));
         error := None |}.
Proof.
  intros Hl Hc. unfold AuthService_login, try_catch_return, login_body.
  unfold bind, prisma.findUnique_email, get_env, console_log, sign, get_clock, ret.
  rewrite Hl, Hc. cbn [negb log_call env].
  destruct (secrets_missing_in_production (env w)); reflexivity.
Qed.

Lemma login_result_shape (credentials : LoginCredentials.t) (w : World) :
  (exists msg, fst (AuthService_login credentials w) = failure msg)
  \/ (exists (u : User.t) (tok rtok : string),
        fst (AuthService_login credentials w) =
          {| success := true; user := Some (user_object u); token := Some tok;
             refreshToken := Some rtok; error := None |}).
Proof.
  destruct (prisma.lookup_email (LoginCredentials.email credentials) (users w))
    as [u |] eqn:Hl.
  - destruct (bcrypt_compare (LoginCredentials.password credentials) (User.passwordHash u))
      eqn:Hc.
    + rewrite (login_right_password credentials w u Hl Hc).
      destruct (secrets_missing_in_production (env w));
        [left; eexists | right; do 3 eexists]; reflexivity.
    + left. rewrite (login_wrong_password credentials w u Hl Hc).
      eexists. reflexivity.
  - left. rewrite (login_unknown_email credentials w Hl).
    eexists. reflexivity.
Qed.

(** C2: a login with an e-mail that matches no stored user and a login
    with a stored e-mail and a password that does not match the stored
    hash are answered with the same failure result, whose message is
    "Invalid email or password": the caller cannot tell the two causes
    apart. *)
Theorem login_failures_are_indistinguishable
    (unknown : LoginCredentials.t) (w1 : World)
    (mistaken : LoginCredentials.t) (w2 : World) (u : User.t) :
  prisma.lookup_email (LoginCredentials.email unknown) (users w1) = None ->
  prisma.lookup_email (LoginCredentials.email mistaken) (users w2) = Some u ->
  bcrypt_compare (LoginCredentials.password mistaken) (User.passwordHash u) = false ->
  fst (AuthService_login unknown w1) = fst (AuthService_login mistaken w2)
  /\ success (fst (AuthService_login unknown w1)) = false
  /\ error (fst (AuthService_login unknown w1)) = Some "Invalid email or password"
  /\ error (fst (AuthService_login mistaken w2)) = Some "Invalid email or password".
Proof.
  intros Hnone Hsome Hbad.
  rewrite (login_unknown_email unknown w1 Hnone).
  rewrite (login_wrong_password mistaken w2 u Hsome Hbad).
  cbn. auto.
Qed.

(** ** Token refresh *)

Lemma is_refresh_true (p : JwtPayload.t) :
  is_refresh p = true <-> JwtPayload.type p = Some "refresh".
Proof.
  unfold is_refresh. destruct (JwtPayload.type p) as [t |].
  - rewrite String.eqb_eq. split; congruence.
  - split; discriminate.
Qed.

(** [refreshToken], case by case on what [jwt.verify] finds under the
    refresh secret, on the type marker and on the lookup by id. *)
Lemma refreshToken_result (tok : string) (w : World) :
  fst (AuthService_refreshToken tok w) =
    match jwt_verify tok (refreshSecret_of (env w)) (clock w) with
    | VerifyError _ => failure "Invalid or expired refresh token"
    | Decoded p =>
        if is_refresh p then
          match prisma.lookup_id (JwtPayload.userId p) (users w) with
          | None => failure "User not found"
          | Some u =>
              {| success := true;
                 user := Some (user_object u);
                 token := Some (jwt_sign {| JwtPayload.userId := User.id u;
                                            JwtPayload.email := User.email u;
                                            JwtPayload.type := None |}
                                         (jwtSecret_of (env w)) expiresIn_15m (clock w));
                 refreshToken := None;
                 error := None |}
          end
        else failure "Invalid refresh token"
    end.
Proof.
  unfold AuthService_refreshToken, try_catch_return, refreshToken_body.
  unfold verify, sign, get_env, get_clock, prisma.findUnique_id, throw, ret, bind.
  destruct (jwt_verify tok (refreshSecret_of (env w)) (clock w)) as [p | err];
    [| reflexivity].
  destruct (is_refresh p); [| reflexivity].
  cbn [negb log_call users].
  destruct (prisma.lookup_id (JwtPayload.userId p) (users w)); reflexivity.
Qed.

(** C8: for every token given to [refreshToken].  When [jwt.verify]
    under the refresh secret rejects it (bad signature, expired), or the
    decoded type marker is not ['refresh'], the call fails with an
    invalid-token error; when the token verifies as a refresh token and
    no user has the decoded id, it fails with "User not found"; when it
    succeeds, the result holds a new access token for the stored user and
    no refresh token. *)
Theorem refreshToken_outcomes (tok : string) (w : World) :
  (forall err,
      jwt_verify tok (refreshSecret_of (env w)) (clock w) = VerifyError err ->
      fst (AuthService_refreshToken tok w) = failure "Invalid or expired refresh token")
  /\ (forall p,
         jwt_verify tok (refreshSecret_of (env w)) (clock w) = Decoded p ->
         JwtPayload.type p <> Some "refresh" ->
         fst (AuthService_refreshToken tok w) = failure "Invalid refresh token")
  /\ (forall p,
         jwt_verify tok (refreshSecret_of (env w)) (clock w) = Decoded p ->
         JwtPayload.type p = Some "refresh" ->
         prisma.lookup_id (JwtPayload.userId p) (users w) = None ->
         fst (AuthService_refreshToken tok w) = failure "User not found")
  /\ (forall p u,
         jwt_verify tok (refreshSecret_of (env w)) (clock w) = Decoded p ->
         JwtPayload.type p = Some "refresh" ->
         prisma.lookup_id (JwtPayload.userId p) (users w) = Some u ->
         fst (AuthService_refreshToken tok w) =
           {| success := true;
              user := Some (user_object u);
              token := Some (jwt_sign {| JwtPayload.userId := User.id u;
                                         JwtPayload.email := User.email u;
                                         JwtPayload.type := None |}
                                      (jwtSecret_of (env w)) expiresIn_15m (clock w));
              refreshToken := None;
              error := None |})
  /\ (success (fst (AuthService_refreshToken tok w)) = true ->
      token (fst (AuthService_refreshToken tok w)) <> None
      /\ refreshToken (fst (AuthService_refreshToken tok w)) = None).
Proof.
  rewrite refreshToken_result.
  split; [| split; [| split; [| split]]].
  - intros err ->. reflexivity.
  - intros p -> Hty.
    destruct (is_refresh p) eqn:E; [| reflexivity].
    apply is_refresh_true in E. contradiction.
  - intros p -> Hty Hl. apply is_refresh_true in Hty. rewrite Hty, Hl. reflexivity.
  - intros p u -> Hty Hl. apply is_refresh_true in Hty. rewrite Hty, Hl. reflexivity.
  - destruct (jwt_verify tok (refreshSecret_of (env w)) (clock w)) as [p | err];
      [| discriminate].
    destruct (is_refresh p); [| discriminate].
    destruct (prisma.lookup_id (JwtPayload.userId p) (users w)); [| discriminate].
    intros _. split; [discriminate | reflexivity].
Qed.

Lemma refreshToken_result_shape (tok : string) (w : World) :
  (exists msg, fst (AuthService_refreshToken tok w) = failure msg)
  \/ (exists (u : User.t) (newToken : string),
        fst (AuthService_refreshToken tok w) =
          {| success := true; user := Some (user_object u); token := Some newToken;
             refreshToken := None; error := None |}).
Proof.
  rewrite refreshToken_result.
  destruct (jwt_verify tok (refreshSecret_of (env w)) (clock w)) as [p | err];
    [| left; eexists; reflexivity].
  destruct (is_refresh p); [| left; eexists; reflexivity].
  destruct (prisma.lookup_id (JwtPayload.userId p) (users w));
    [right; do 2 eexists | left; eexists]; reflexivity.
Qed.

(** ** The user object of a result *)

Lemma user_object_keys (u : User.t) :
  Js.keys (user_object u) = ["id"; "email"; "name"; "userType"; "preferredLanguage"].
Proof. reflexivity. Qed.

Lemma user_object_has_no_passwordHash (u : User.t) :
  Js.get "passwordHash" (user_object u) = None.
Proof. reflexivity. Qed.

(** C9: in every successful result of [register], [login] or
    [refreshToken] the [user] object has exactly the properties id, email,
    name, userType and preferredLanguage; it has no passwordHash
    property. *)
Theorem successful_result_user_is_sanitized (call : AuthCall) (w : World) :
  success (fst (run_call call w)) = true ->
  exists u : Js.object,
    user (fst (run_call call w)) = Some u
    /\ Js.keys u = ["id"; "email"; "name"; "userType"; "preferredLanguage"]
    /\ Js.get "passwordHash" u = None.
Proof.
  destruct call as [userData | credentials | tok]; cbn [run_call].
  - destruct (register_result_shape userData w) as [(msg & ->) | (u & t & r & ->)];
      [discriminate |].
    intros _. exists (user_object u). cbn [user].
    auto using user_object_keys, user_object_has_no_passwordHash.
  - destruct (login_result_shape credentials w) as [(msg & ->) | (u & t & r & ->)];
      [discriminate |].
    intros _. exists (user_object u). cbn [user].
    auto using user_object_keys, user_object_has_no_passwordHash.
  - destruct (refreshToken_result_shape tok w) as [(msg & ->) | (u & t & ->)];
      [discriminate |].
    intros _. exists (user_object u). cbn [user].
    auto using user_object_keys, user_object_has_no_passwordHash.
Qed.

(** ** The configuration test is absent from two of the four paths *)

(** [refreshToken] never looks at NODE_ENV: with no secret set it
    verifies under the development refresh secret and signs under the
    development access secret, in production as anywhere else. *)
Lemma refreshToken_without_secrets (tok : string) (w : World)
    (p : JwtPayload.t) (u : User.t) :
  JWT_SECRET (env w) = None ->
  JWT_REFRESH_SECRET (env w) = None ->
  jwt_verify tok default_refresh_secret (clock w) = Decoded p ->
  JwtPayload.type p = Some "refresh" ->
  prisma.lookup_id (JwtPayload.userId p) (users w) = Some u ->
  fst (AuthService_refreshToken tok w) =
    {| success := true;
       user := Some (user_object u);
       token := Some (jwt_sign {| JwtPayload.userId := User.id u;
                                  JwtPayload.email := User.email u;
                                  JwtPayload.type := None |}
                               default_jwt_secret expiresIn_15m (clock w));
       refreshToken := None;
       error := None |}.
Proof.
  intros Hs Hr Hv Hty Hl. rewrite refreshToken_result.
  unfold refreshSecret_of, jwtSecret_of. rewrite Hs, Hr. cbn [Js.or_else].
  apply is_refresh_true in Hty. rewrite Hv, Hty, Hl. reflexivity.
Qed.

(** [authenticateToken] never looks at NODE_ENV either: with JWT_SECRET
    unset, a token that verifies under the development secret is let
    through. *)
Lemma authenticateToken_without_secret (authHeader tok : string) (w : World)
    (p : JwtPayload.t) :
  JWT_SECRET (env w) = None ->
  bearer_token (Some authHeader) = Some tok ->
  tok <> "" ->
  jwt_verify tok default_jwt_secret (clock w) = Decoded p ->
  authenticateToken (Some authHeader) w = Next p.
Proof.
  intros Hs Hb Hne Hv. unfold authenticateToken. rewrite Hb.
  unfold Js.truthy. destruct (String.eqb_spec tok "") as [E | _]; [contradiction |].
  cbn [negb]. unfold jwtSecret_of. rewrite Hs. cbn [Js.or_else]. rewrite Hv. reflexivity.
Qed.

(** ** The phone number *)

Lemma strip_non_digits_all_digits (s : string) :
  Js.all_digits (Js.strip_non_digits s) = true.
Proof.
  induction s as [| c r IH]; [reflexivity |].
  cbn [Js.strip_non_digits]. destruct (Js.is_digit c) eqn:E; [| exact IH].
  cbn [Js.all_digits]. rewrite E, IH. reflexivity.
Qed.

Lemma passes_validation_with_phoneNumber (p : option string)
    (userData : UserRegistrationData) :
  passes_validation (with_phoneNumber p userData) = passes_validation userData.
Proof. reflexivity. Qed.

(** C4 (amended): [AuthService.register] puts no condition on
    phoneNumber: its answer is the same whatever the field holds, present
    or absent, and a successful registration stores the field as it was
    submitted.  The ten-digit rule lives in the client form only:
    [validateForm] reports a phone-number error exactly when the field is
    not empty and does not hold 10 digits once the non-digits are
    removed. *)
Theorem register_does_not_validate_phoneNumber
    (userData : UserRegistrationData) (w : World) :
  (forall p : option string,
      fst (AuthService_register (with_phoneNumber p userData) w)
      = fst (AuthService_register userData w))
  /\ (success (fst (AuthService_register userData w)) = true ->
      exists row,
        users (snd (AuthService_register userData w)) = (users w ++ [row])%list
        /\ User.email row = email userData
        /\ User.phoneNumber row = phoneNumber userData)
  /\ (forall phone : string,
         validateForm_phoneNumber phone = None
         <-> (phone = "" \/ String.length (Js.strip_non_digits phone) = 10)).
Proof.
  split; [| split].
  - intros p.
    destruct (passes_validation userData) eqn:Hv.
    + assert (Hv' := Hv). rewrite <- (passes_validation_with_phoneNumber p) in Hv'.
      destruct (prisma.lookup_email (email userData) (users w)) as [existing |] eqn:Hl.
      * rewrite (register_valid_taken_email userData w existing Hv Hl).
        rewrite (register_valid_taken_email (with_phoneNumber p userData) w existing Hv' Hl).
        reflexivity.
      * rewrite (register_valid_new_email userData w Hv Hl).
        rewrite (register_valid_new_email (with_phoneNumber p userData) w Hv' Hl).
        cbv zeta. destruct (secrets_missing_in_production (env w)); reflexivity.
    + unfold passes_validation, AuthService_register, try_catch_return, register_body in *.
      change (UserRegistrationSchema_safeParse (with_phoneNumber p userData))
        with (UserRegistrationSchema_safeParse userData).
      change (password (with_phoneNumber p userData)) with (password userData).
      change (name (with_phoneNumber p userData)) with (name userData).
      destruct (UserRegistrationSchema_safeParse userData); [| reflexivity].
      destruct (String.length (Js.trim (password userData)) <? 8)%nat; [reflexivity |].
      destruct (String.length (Js.trim (name userData)) <? 2)%nat; [reflexivity |].
      discriminate.
  - destruct (passes_validation userData) eqn:Hv.
    + destruct (prisma.lookup_email (email userData) (users w)) as [existing |] eqn:Hl.
      * rewrite (register_valid_taken_email userData w existing Hv Hl). discriminate.
      * rewrite (register_valid_new_email userData w Hv Hl). cbv zeta.
        destruct (secrets_missing_in_production (env w)); [discriminate |].
        intros _. eexists. cbn [snd users]. split; [reflexivity |]. split; reflexivity.
    + destruct (register_invalid userData w Hv) as (msg & ->). discriminate.
  - intros phone. unfold validateForm_phoneNumber, Js.test_ten_digits, Js.truthy.
    rewrite strip_non_digits_all_digits, andb_true_r.
    destruct (String.eqb_spec phone "") as [-> | Hne]; cbn [negb andb].
    + split; auto.
    + destruct (Nat.eqb_spec (String.length (Js.strip_non_digits phone)) 10) as [E | E];
        cbn [negb].
      * split; auto.
      * split; [discriminate | intros [? | ?]; contradiction].
Qed.

(** A phone number the form lets through is sent as ten digits. *)
Lemma handleSubmit_sends_ten_digits (phone sent : string) :
  validateForm_phoneNumber phone = None ->
  handleSubmit_phoneNumber phone = Some sent ->
  String.length sent = 10 /\ Js.all_digits sent = true.
Proof.
  unfold validateForm_phoneNumber, handleSubmit_phoneNumber, Js.test_ten_digits.
  destruct (Js.truthy phone); [| discriminate].
  cbn [andb]. rewrite strip_non_digits_all_digits, andb_true_r.
  destruct (Nat.eqb_spec (String.length (Js.strip_non_digits phone)) 10) as [E | E];
    [| discriminate].
  intros _ [= <-]. split; [exact E | apply strip_non_digits_all_digits].
Qed.

(** ** The second password test *)

(** What [password.trim().length < 8] refuses: a password that the schema
    accepts and that is shorter than 8 once the white space at its two
    ends is removed.  White space inside the password counts. *)
Lemma register_refuses_short_trimmed_password
    (userData : UserRegistrationData) (w : World) :
  UserRegistrationSchema_safeParse userData = ParseSuccess ->
  String.length (Js.trim (password userData)) < 8 ->
  AuthService_register userData w =
    (failure "Password must contain at least 8 non-whitespace characters", w).
Proof.
  intros Hs Hlen. unfold AuthService_register, try_catch_return, register_body.
  rewrite Hs.
  destruct (Nat.ltb_spec (String.length (Js.trim (password userData))) 8); [| lia].
  reflexivity.
Qed.

End Properties.

(** * Further properties of the service *)

Section ServiceProperties.

Context `{Zod} `{Bcrypt} `{Jwt} `{Database}.

(** ** What each call leaves of the world *)

Lemma login_world (credentials : LoginCredentials.t) (w : World) :
  users (snd (AuthService_login credentials w)) = users w
  /\ env (snd (AuthService_login credentials w)) = env w
  /\ clock (snd (AuthService_login credentials w)) = clock w
  /\ calls (snd (AuthService_login credentials w))
     = (calls w ++ [FindUniqueByEmail (LoginCredentials.email credentials)])%list.
Proof.
  unfold AuthService_login, try_catch_return, login_body.
  unfold sign, get_env, get_clock, console_log, prisma.findUnique_email, ret, bind.
  cbn [users log_call].
  destruct (prisma.lookup_email (LoginCredentials.email credentials) (users w)) as [u |];
    [| cbn; auto].
  destruct (bcrypt_compare (LoginCredentials.password credentials) (User.passwordHash u));
    cbn [negb]; [| cbn; auto].
  cbn [env log_call].
  destruct (secrets_missing_in_production (env w)); cbn; auto.
Qed.

Lemma refreshToken_world (tok : string) (w : World) :
  users (snd (AuthService_refreshToken tok w)) = users w
  /\ env (snd (AuthService_refreshToken tok w)) = env w
  /\ clock (snd (AuthService_refreshToken tok w)) = clock w
  /\ writes (calls (snd (AuthService_refreshToken tok w))) = writes (calls w).
Proof.
  unfold AuthService_refreshToken, try_catch_return, refreshToken_body.
  unfold verify, sign, get_env, get_clock, prisma.findUnique_id, throw, ret, bind.
  destruct (jwt_verify tok (refreshSecret_of (env w)) (clock w)) as [p | err];
    [| cbn; auto].
  destruct (is_refresh p); cbn [negb]; [| cbn; auto].
  cbn [users log_call].
  destruct (prisma.lookup_id (JwtPayload.userId p) (users w));
    cbn; rewrite writes_app; cbn; rewrite app_nil_r; auto.
Qed.

Lemma register_world (userData : UserRegistrationData) (w : World) :
  env (snd (AuthService_register userData w)) = env w
  /\ clock (snd (AuthService_register userData w)) = clock w
  /\ (users (snd (AuthService_register userData w)) = users w
      \/ exists hash salt,
           hash = bcrypt_hash (password userData) 12 salt
           /\ prisma.lookup_email (email userData) (users w) = None
           /\ users (snd (AuthService_register userData w))
              = (users w
                 ++ [prisma.new_row (generate_id (users w))
                       {| UserCreateInput.email := email userData;
                          UserCreateInput.passwordHash := hash;
                          UserCreateInput.name := name userData;
                          UserCreateInput.userType := userType userData;
                          UserCreateInput.preferredLanguage := preferredLanguage userData;
                          UserCreateInput.phoneNumber := phoneNumber userData |}])%list).
Proof.
  destruct (passes_validation userData) eqn:Hv.
  - destruct (prisma.lookup_email (email userData) (users w)) as [existing |] eqn:Hl.
    + rewrite (register_valid_taken_email userData w existing Hv Hl). cbn. auto.
    + rewrite (register_valid_new_email userData w Hv Hl). cbv zeta.
      destruct (secrets_missing_in_production (env w)); cbn [snd env clock users];
        (split; [reflexivity |]; split; [reflexivity |]; right;
         exists (bcrypt_hash (password userData) 12 (entropy w)), (entropy w); auto).
  - destruct (register_invalid userData w Hv) as (msg & ->). cbn. auto.
Qed.

(** X3: [login] and [refreshToken] only read: whatever the credentials or
    the token, and whether they succeed or fail, no create and no update
    reaches the storage collaborator and the users table is unchanged. *)
Theorem login_and_refreshToken_only_read
    (credentials : LoginCredentials.t) (tok : string) (w : World) :
  users (snd (AuthService_login credentials w)) = users w
  /\ writes (calls (snd (AuthService_login credentials w))) = writes (calls w)
  /\ users (snd (AuthService_refreshToken tok w)) = users w
  /\ writes (calls (snd (AuthService_refreshToken tok w))) = writes (calls w).
Proof.
  destruct (login_world credentials w) as (Hu & _ & _ & Hc).
  destruct (refreshToken_world tok w) as (Hu' & _ & _ & Hc').
  rewrite Hc, writes_app. cbn. rewrite app_nil_r. auto.
Qed.

(** X5: [register] never changes or removes a stored user.  The table it
    leaves is the old one, or the old one followed by one row; that row
    has the submitted e-mail, which no older row has, and its passwordHash
    is what bcrypt's hash gives for the password at cost 12. *)
Theorem register_appends_at_most_one_row (userData : UserRegistrationData) (w : World) :
  users (snd (AuthService_register userData w)) = users w
  \/ exists row salt,
       users (snd (AuthService_register userData w)) = (users w ++ [row])%list
       /\ User.email row = email userData
       /\ User.passwordHash row = bcrypt_hash (password userData) 12 salt
       /\ Forall (fun old => User.email old <> email userData) (users w).
Proof.
  destruct (register_world userData w) as (_ & _ & [Hsame | (hash & salt & Hh & Hfree & Hu)]).
  - left. exact Hsame.
  - right. eexists. exists salt. split; [exact Hu |].
    split; [reflexivity |]. split; [cbn; exact Hh |].
    apply Forall_forall. intros old Hin Heq.
    unfold prisma.lookup_email in Hfree.
    apply (find_none _ _ Hfree) in Hin. cbn in Hin.
    rewrite Heq, String.eqb_refl in Hin. discriminate.
Qed.

(** ** Register, then log in *)

(** X1: after a successful registration, a login with the same e-mail and
    password succeeds and answers with the same user object, provided
    bcrypt's compare accepts the password against the hash it has just
    produced. *)
Theorem register_then_login_round_trip (userData : UserRegistrationData) (w : World) :
  passes_validation userData = true ->
  prisma.lookup_email (email userData) (users w) = None ->
  secrets_missing_in_production (env w) = false ->
  bcrypt_compare (password userData) (bcrypt_hash (password userData) 12 (entropy w)) = true ->
  success (fst (AuthService_register userData w)) = true
  /\ success (fst (AuthService_login
                     {| LoginCredentials.email := email userData;
                        LoginCredentials.password := password userData |}
                     (snd (AuthService_register userData w)))) = true
  /\ user (fst (AuthService_login
                  {| LoginCredentials.email := email userData;
                     LoginCredentials.password := password userData |}
                  (snd (AuthService_register userData w))))
     = user (fst (AuthService_register userData w)).
Proof.
  intros Hv Hfree Hconf Hcmp.
  rewrite (register_valid_new_email userData w Hv Hfree). cbv zeta. rewrite Hconf.
  cbn [fst snd].
  match goal with
  | |- context [AuthService_login ?c ?w'] =>
      pose proof (login_right_password c w') as Hlogin
  end.
  cbn [users env clock LoginCredentials.email LoginCredentials.password] in Hlogin.
  erewrite Hlogin;
    [| apply lookup_email_app; [exact Hfree | reflexivity] | exact Hcmp].
  rewrite Hconf. cbn. auto.
Qed.

(** ** Log in, then refresh *)

(** X2: the refresh token a login hands out is accepted by [refreshToken]
    right away, for the same user object, provided jsonwebtoken verifies
    what it has just signed and the user's id finds the user's row. *)
Theorem login_refresh_token_is_accepted
    (credentials : LoginCredentials.t) (w : World) (u : User.t) :
  prisma.lookup_email (LoginCredentials.email credentials) (users w) = Some u ->
  bcrypt_compare (LoginCredentials.password credentials) (User.passwordHash u) = true ->
  secrets_missing_in_production (env w) = false ->
  prisma.lookup_id (User.id u) (users w) = Some u ->
  jwt_verify
    (jwt_sign {| JwtPayload.userId := User.id u; JwtPayload.email := User.email u;
                 JwtPayload.type := Some "refresh" |}
              (refreshSecret_of (env w)) expiresIn_7d (clock w))
    (refreshSecret_of (env w)) (clock w)
  = Decoded {| JwtPayload.userId := User.id u; JwtPayload.email := User.email u;
               JwtPayload.type := Some "refresh" |} ->
  exists rtok,
    refreshToken (fst (AuthService_login credentials w)) = Some rtok
    /\ fst (AuthService_refreshToken rtok (snd (AuthService_login credentials w)))
       = {| success := true;
            user := user (fst (AuthService_login credentials w));
            token := token (fst (AuthService_login credentials w));
            refreshToken := None;
            error := None |}.
Proof.
  intros Hl Hcmp Hconf Hid Hjwt.
  destruct (login_world credentials w) as (Hu & He & Hc & _).
  rewrite (login_right_password credentials w u Hl Hcmp), Hconf.
  cbn [refreshToken user token].
  eexists. split; [reflexivity |].
  rewrite refreshToken_result, Hu, He, Hc, Hjwt. cbn. rewrite Hid. reflexivity.
Qed.

(** ** Unique e-mails *)

Lemma lookup_email_none_not_in (e : string) (us : list User.t) :
  prisma.lookup_email e us = None -> ~ In e (map User.email us).
Proof.
  unfold prisma.lookup_email. intros Hnone Hin.
  apply in_map_iff in Hin as (u & Hu & Hin).
  apply (find_none _ _ Hnone) in Hin. cbn in Hin.
  rewrite Hu, String.eqb_refl in Hin. discriminate.
Qed.

Lemma set_language_email (i language : string) (u : User.t) :
  User.email (prisma.set_language i language u) = User.email u.
Proof. unfold prisma.set_language. destruct (User.id u =? i); reflexivity. Qed.

Lemma set_language_id (i language : string) (u : User.t) :
  User.id (prisma.set_language i language u) = User.id u.
Proof. unfold prisma.set_language. destruct (User.id u =? i); reflexivity. Qed.

Lemma map_email_set_language (i language : string) (us : list User.t) :
  map User.email (map (prisma.set_language i language) us) = map User.email us.
Proof.
  rewrite map_map. apply map_ext. intros u. apply set_language_email.
Qed.

Lemma setLanguagePreference_stored (i language : string) (w : World) (u : User.t) :
  prisma.lookup_id i (users w) = Some u ->
  AuthService_setLanguagePreference i language w =
    (Returned tt,
     set_users (map (prisma.set_language i language) (users w))
       (log_call (Update i language) w)).
Proof.
  intros Hl. unfold AuthService_setLanguagePreference, try_catch, prisma.update.
  rewrite Hl. reflexivity.
Qed.

Lemma setLanguagePreference_unknown (i language : string) (w : World) :
  prisma.lookup_id i (users w) = None ->
  AuthService_setLanguagePreference i language w =
    (Thrown (PrismaException "P2025"),
     log_console "Language preference update error:" (log_call (Update i language) w)).
Proof.
  intros Hl. unfold AuthService_setLanguagePreference, try_catch, prisma.update.
  rewrite Hl. reflexivity.
Qed.

Lemma logout_result (userId : string) (w : World) :
  AuthService_logout userId w =
    (Returned tt, log_console ("User " ++ userId ++ " logged out") w).
Proof. reflexivity. Qed.

(** X4: when no two stored users share an e-mail, none do after any call
    of the service: [register], [login], [refreshToken],
    [setLanguagePreference] or [logout], with any argument and whether
    the call succeeds or fails. *)
Theorem unique_emails_are_preserved (w : World) :
  NoDup (map User.email (users w)) ->
  (forall call : AuthCall, NoDup (map User.email (users (snd (run_call call w)))))
  /\ (forall userId language : string,
         NoDup (map User.email
                  (users (snd (AuthService_setLanguagePreference userId language w)))))
  /\ (forall userId : string,
         NoDup (map User.email (users (snd (AuthService_logout userId w))))).
Proof.
  intros Hnd. split; [| split].
  - intros [userData | credentials | tok]; cbn [run_call].
    + destruct (register_world userData w)
        as (_ & _ & [-> | (hash & salt & _ & Hfree & ->)]); [exact Hnd |].
      rewrite map_app. cbn [map prisma.new_row User.email UserCreateInput.email].
      apply NoDup_app; [exact Hnd | repeat constructor; intros [] |].
      intros e Hin [<- | []]. exact (lookup_email_none_not_in _ _ Hfree Hin).
    + destruct (login_world credentials w) as (-> & _). exact Hnd.
    + destruct (refreshToken_world tok w) as (-> & _). exact Hnd.
  - intros userId language.
    destruct (prisma.lookup_id userId (users w)) as [u |] eqn:Hl.
    + rewrite (setLanguagePreference_stored userId language w u Hl).
      cbn [snd users set_users]. rewrite map_email_set_language. exact Hnd.
    + rewrite (setLanguagePreference_unknown userId language w Hl). exact Hnd.
  - intros userId. rewrite logout_result. exact Hnd.
Qed.

(** ** The language preference *)

Lemma lookup_email_map_set_language (e i language : string) (us : list User.t) :
  prisma.lookup_email e (map (prisma.set_language i language) us)
  = option_map (prisma.set_language i language) (prisma.lookup_email e us).
Proof.
  unfold prisma.lookup_email.
  induction us as [| u us IH]; [reflexivity |].
  cbn [map find]. rewrite set_language_email.
  destruct (User.email u =? e); [reflexivity | exact IH].
Qed.

Lemma lookup_email_some_id_stored (e : string) (us : list User.t) (u : User.t) :
  prisma.lookup_email e us = Some u -> prisma.lookup_id (User.id u) us <> None.
Proof.
  unfold prisma.lookup_email, prisma.lookup_id. intros Hfound Hnone.
  apply find_some in Hfound as [Hin _].
  apply (find_none _ _ Hnone) in Hin. cbn in Hin.
  rewrite String.eqb_refl in Hin. discriminate.
Qed.

(** X6: once [setLanguagePreference] has run for a stored user, a login
    of that user answers with the new preferredLanguage, and with the id,
    e-mail, name and userType the user had.  The language is any string:
    the service does not compare it with a list of languages. *)
Theorem setLanguagePreference_then_login
    (credentials : LoginCredentials.t) (w : World) (u : User.t) (language : string) :
  prisma.lookup_email (LoginCredentials.email credentials) (users w) = Some u ->
  bcrypt_compare (LoginCredentials.password credentials) (User.passwordHash u) = true ->
  secrets_missing_in_production (env w) = false ->
  fst (AuthService_setLanguagePreference (User.id u) language w) = Returned tt
  /\ exists obj : Js.object,
       user (fst (AuthService_login credentials
                    (snd (AuthService_setLanguagePreference (User.id u) language w))))
       = Some obj
       /\ Js.get "preferredLanguage" obj = Some language
       /\ Js.get "id" obj = Some (User.id u)
       /\ Js.get "email" obj = Some (User.email u)
       /\ Js.get "name" obj = Some (User.name u)
       /\ Js.get "userType" obj = Some (User.userType u).
Proof.
  intros Hl Hcmp Hconf.
  destruct (prisma.lookup_id (User.id u) (users w)) as [u' |] eqn:Hid;
    [| destruct (lookup_email_some_id_stored _ _ _ Hl Hid)].
  rewrite (setLanguagePreference_stored (User.id u) language w u' Hid).
  split; [reflexivity |]. cbn [snd].
  match goal with
  | |- context [AuthService_login ?c ?w'] =>
      pose proof (login_right_password c w' (prisma.set_language (User.id u) language u))
        as Hlogin
  end.
  cbn [users env set_users log_call] in Hlogin.
  rewrite lookup_email_map_set_language, Hl in Hlogin.
  specialize (Hlogin eq_refl).
  unfold prisma.set_language in Hlogin at 1. rewrite String.eqb_refl in Hlogin.
  cbn [User.passwordHash] in Hlogin. specialize (Hlogin Hcmp).
  rewrite Hlogin, Hconf. cbn [user].
  eexists. split; [reflexivity |].
  unfold prisma.set_language. rewrite String.eqb_refl. cbn. auto 6.
Qed.

(** [setLanguagePreference] writes one column.  Row by row, the table
    it leaves has the ids, e-mails, password hashes, names, user types
    and phone numbers it had, and a preferredLanguage differs only in a
    row with the given id, where it is the given language.  When no row
    has the id, the storage's error is thrown on to the caller and the
    table is unchanged. *)
Theorem setLanguagePreference_changes_one_column (userId language : string) (w : World) :
  Forall2
    (fun old new =>
       User.id new = User.id old
       /\ User.email new = User.email old
       /\ User.passwordHash new = User.passwordHash old
       /\ User.name new = User.name old
       /\ User.userType new = User.userType old
       /\ User.phoneNumber new = User.phoneNumber old
       /\ (new = old \/ (User.id old = userId /\ User.preferredLanguage new = language)))
    (users w) (users (snd (AuthService_setLanguagePreference userId language w)))
  /\ (prisma.lookup_id userId (users w) = None ->
      fst (AuthService_setLanguagePreference userId language w)
      = Thrown (PrismaException "P2025")
      /\ users (snd (AuthService_setLanguagePreference userId language w)) = users w).
Proof.
  split.
  - destruct (prisma.lookup_id userId (users w)) as [u |] eqn:Hl.
    + rewrite (setLanguagePreference_stored userId language w u Hl).
      cbn [snd users set_users]. clear Hl.
      induction (users w) as [| old us IH]; [constructor |].
      cbn [map]. constructor; [| exact IH].
      unfold prisma.set_language.
      destruct (String.eqb_spec (User.id old) userId) as [E | E]; cbn; auto 10.
    + rewrite (setLanguagePreference_unknown userId language w Hl).
      cbn [snd users log_console log_call]. clear Hl.
      induction (users w) as [| old us IH]; constructor; [| exact IH].
      repeat split; auto.
  - intros Hl. rewrite (setLanguagePreference_unknown userId language w Hl). auto.
Qed.

(** ** Logout *)

(** X7: [logout] revokes nothing.  It returns, leaves the users table
    and the storage untouched, and afterwards the middleware and
    [refreshToken] answer every header and every token as they did
    before: a token stays valid until it expires. *)
Theorem logout_revokes_nothing (userId : string) (w : World) :
  fst (AuthService_logout userId w) = Returned tt
  /\ users (snd (AuthService_logout userId w)) = users w
  /\ calls (snd (AuthService_logout userId w)) = calls w
  /\ (forall authHeader : option string,
         authenticateToken authHeader (snd (AuthService_logout userId w))
         = authenticateToken authHeader w)
  /\ (forall tok : string,
         fst (AuthService_refreshToken tok (snd (AuthService_logout userId w)))
         = fst (AuthService_refreshToken tok w)).
Proof.
  rewrite logout_result. cbn [fst snd].
  repeat split.
  intros tok. rewrite !refreshToken_result. reflexivity.
Qed.

End ServiceProperties.

(** * Properties of the middleware and of the HTTP handlers *)

Section RouteProperties.

Context `{Zod} `{Bcrypt} `{Jwt} `{Database}.

(** ** Splitting the Authorization header *)

Lemma split_without_separator (sep : ascii) (s : string) :
  has_char sep s = false -> Js.split sep s = [s].
Proof.
  induction s as [| c r IH]; [reflexivity |].
  cbn [has_char Js.split]. intros Hno. apply orb_false_iff in Hno as [Hc Hr].
  rewrite Hc, (IH Hr). reflexivity.
Qed.

Lemma split_at_first_separator (sep : ascii) (a b : string) :
  has_char sep a = false ->
  Js.split sep (a ++ String sep b) = a :: Js.split sep b.
Proof.
  induction a as [| c r IH]; cbn [has_char append Js.split].
  - intros _. rewrite Ascii.eqb_refl. reflexivity.
  - intros Hno. apply orb_false_iff in Hno as [Hc Hr].
    rewrite Hc, (IH Hr). reflexivity.
Qed.

Lemma truthy_with_separator (sep : ascii) (a b : string) :
  Js.truthy (a ++ String sep b) = true.
Proof. destruct a; reflexivity. Qed.

Lemma truthy_true (s : string) : s <> "" -> Js.truthy s = true.
Proof.
  intros Hne. unfold Js.truthy. destruct (String.eqb_spec s ""); [contradiction | reflexivity].
Qed.

Lemma bearer_token_second_word (scheme tok : string) :
  has_char " " scheme = false ->
  has_char " " tok = false ->
  bearer_token (Some (scheme ++ String " " tok)) = Some tok.
Proof.
  intros Hs Ht. unfold bearer_token.
  rewrite truthy_with_separator, (split_at_first_separator " " scheme tok Hs).
  rewrite (split_without_separator " " tok Ht). reflexivity.
Qed.

(** X8: the middleware reads the second word of the Authorization header
    and never looks at the first.  With any scheme word, [Bearer] or
    not, even an empty one, a token that jsonwebtoken verifies under the
    access secret is let through with its decoded claims as [req.user],
    and a token it rejects is answered with 403. *)
Theorem authenticateToken_ignores_the_scheme (scheme tok : string) (w : World) :
  has_char " " scheme = false ->
  has_char " " tok = false ->
  tok <> "" ->
  authenticateToken (Some (scheme ++ String " " tok)) w =
    match jwt_verify tok (jwtSecret_of (env w)) (clock w) with
    | Decoded claims => Next claims
    | VerifyError _ => Respond 403 (failure "Invalid or expired token")
    end.
Proof.
  intros Hs Ht Hne. unfold authenticateToken.
  rewrite (bearer_token_second_word scheme tok Hs Ht), (truthy_true tok Hne).
  reflexivity.
Qed.

(** X9: without a second word there is no token: a missing header, a
    header without a space (a bare token, say) and a header that ends
    after its first space are all answered with 401 "Access token
    required", whatever jsonwebtoken would say of their content. *)
Theorem authenticateToken_requires_a_second_word (w : World) :
  authenticateToken None w = Respond 401 (failure "Access token required")
  /\ (forall header : string,
         has_char " " header = false ->
         authenticateToken (Some header) w = Respond 401 (failure "Access token required"))
  /\ (forall scheme : string,
         has_char " " scheme = false ->
         authenticateToken (Some (scheme ++ " ")) w
         = Respond 401 (failure "Access token required")).
Proof.
  split; [reflexivity | split].
  - intros header Hno. unfold authenticateToken, bearer_token.
    destruct (Js.truthy header) eqn:Ht.
    + rewrite (split_without_separator " " header Hno). reflexivity.
    + rewrite Ht. reflexivity.
  - intros scheme Hs. unfold authenticateToken.
    rewrite (bearer_token_second_word scheme "" Hs eq_refl). reflexivity.
Qed.

(** X10: the header the client's request interceptor builds from the
    stored access token is read back by the middleware as that token:
    the request is judged by what jsonwebtoken says of the stored token.
    With no token stored, or an empty one, no header is sent and the
    middleware answers 401. *)
Theorem interceptor_header_reaches_the_middleware
    (localStorage : Js.object) (w : World) :
  (forall tok : string,
      Js.get "authToken" localStorage = Some tok ->
      tok <> "" ->
      has_char " " tok = false ->
      authenticateToken (request_interceptor localStorage) w =
        match jwt_verify tok (jwtSecret_of (env w)) (clock w) with
        | Decoded claims => Next claims
        | VerifyError _ => Respond 403 (failure "Invalid or expired token")
        end)
  /\ (Js.get "authToken" localStorage = None \/ Js.get "authToken" localStorage = Some "" ->
      authenticateToken (request_interceptor localStorage) w
      = Respond 401 (failure "Access token required")).
Proof.
  split.
  - intros tok Hget Hne Hno. unfold request_interceptor.
    rewrite Hget, (truthy_true tok Hne).
    unfold authenticateToken.
    change ("Bearer " ++ tok) with ("Bearer" ++ String " " tok).
    rewrite (bearer_token_second_word "Bearer" tok eq_refl Hno), (truthy_true tok Hne).
    reflexivity.
  - intros [Hget | Hget]; unfold request_interceptor; rewrite Hget; reflexivity.
Qed.

(** ** POST /api/auth/register *)

(** X11: the register endpoint answers with the service's result as its
    body and leaves the world the service leaves: status 201 when the
    result is a success and 400 when it is not.  The handler's own schema
    test changes nothing, and the endpoint never answers 500. *)
Theorem route_register_answers_as_the_service (reqBody : UserRegistrationData) (w : World) :
  route_register reqBody w =
    (respond (if success (fst (AuthService_register reqBody w)) then 201 else 400)
             (JsonResult (fst (AuthService_register reqBody w))),
     snd (AuthService_register reqBody w)).
Proof.
  unfold route_register, try_catch_return at 1.
  destruct (UserRegistrationSchema_safeParse reqBody) as [| errors] eqn:Hs.
  - unfold await, bind, ret.
    destruct (AuthService_register reqBody w) as [r w']. cbn [fst snd].
    destruct (success r); reflexivity.
  - unfold AuthService_register, try_catch_return, register_body. rewrite Hs.
    reflexivity.
Qed.

(** ** POST /api/auth/login *)


(** X12: a login request whose e-mail or password is missing or empty is
    answered with 400 "Email and password are required" before the
    service is called: the world, storage calls included, is untouched. *)
Theorem route_login_requires_both_fields (reqBody : LoginBody.t) (w : World) :
  Js.truthy_opt (LoginBody.email reqBody) = false
  \/ Js.truthy_opt (LoginBody.password reqBody) = false ->
  route_login reqBody w =
    (respond 400 (JsonResult (failure "Email and password are required")), w).
Proof.
  unfold route_login, try_catch_return, Js.truthy_opt.
  destruct (LoginBody.email reqBody) as [e |], (LoginBody.password reqBody) as [p |];
    intros [Hm | Hm]; try discriminate; try reflexivity;
    rewrite Hm; cbn [negb orb]; try rewrite orb_true_r; reflexivity.
Qed.


(** ** POST /api/auth/refresh *)


(** ** POST /api/auth/logout *)

Lemma route_logout_result (authHeader : option string) (w : World) :
  route_logout authHeader w =
    match authenticateToken authHeader w with
    | Respond s b => (respond s (JsonResult b), w)
    | Next reqUser =>
        if Js.truthy (JwtPayload.userId reqUser) then
          (respond 200 (JsonMessage true "Logged out successfully"),
           log_console ("User " ++ JwtPayload.userId reqUser ++ " logged out") w)
        else (respond 400 (JsonResult (failure "User ID not found in token")), w)
    end.
Proof.
  unfold route_logout.
  destruct (authenticateToken authHeader w) as [s b | reqUser]; [reflexivity |].
  unfold try_catch_return. destruct (Js.truthy (JwtPayload.userId reqUser)); reflexivity.
Qed.

Lemma authenticateToken_console (authHeader : option string) (w : World) (line : string) :
  authenticateToken authHeader (log_console line w) = authenticateToken authHeader w.
Proof. reflexivity. Qed.

(** X15: the logout endpoint ends no session on the server.  It never
    touches the storage, and the request that has just logged out, sent
    again with the same token, gets the same response: a 200 "Logged out
    successfully" can be had as long as the token verifies. *)
Theorem route_logout_invalidates_nothing (authHeader : option string) (w : World) :
  users (snd (route_logout authHeader w)) = users w
  /\ calls (snd (route_logout authHeader w)) = calls w
  /\ fst (route_logout authHeader (snd (route_logout authHeader w)))
     = fst (route_logout authHeader w)
  /\ (forall other : option string,
         authenticateToken other (snd (route_logout authHeader w))
         = authenticateToken other w).
Proof.
  rewrite !route_logout_result.
  destruct (authenticateToken authHeader w) as [s b | reqUser] eqn:Ha.
  - cbn [fst snd]. rewrite Ha. auto.
  - destruct (Js.truthy (JwtPayload.userId reqUser)) eqn:Ht; cbn [fst snd].
    + rewrite authenticateToken_console, Ha, Ht. cbn. auto.
    + rewrite Ha, Ht. auto.
Qed.

(** ** PUT /api/auth/language *)

Lemma lookup_id_map_set_language (i language : string) (us : list User.t) :
  prisma.lookup_id i (map (prisma.set_language i language) us)
  = option_map (prisma.set_language i language) (prisma.lookup_id i us).
Proof.
  unfold prisma.lookup_id.
  induction us as [| u us IH]; [reflexivity |].
  cbn [map find]. rewrite set_language_id.
  destruct (User.id u =? i); [reflexivity | exact IH].
Qed.

(** X16: an authenticated request with a language of two characters or
    more, for a stored user, is answered with 200 and the language is
    stored as sent: the row found by the token's userId then has that
    preferredLanguage.  The language is not compared with any list of
    supported languages. *)
Theorem route_language_stores_the_language_as_sent
    (authHeader : option string) (language : string) (w : World)
    (claims : JwtPayload.t) (u : User.t) :
  authenticateToken authHeader w = Next claims ->
  JwtPayload.userId claims <> "" ->
  2 <= String.length language ->
  prisma.lookup_id (JwtPayload.userId claims) (users w) = Some u ->
  fst (route_language authHeader (Some language) w)
  = respond 200 (JsonMessage true "Language preference updated successfully")
  /\ exists u',
       prisma.lookup_id (JwtPayload.userId claims)
         (users (snd (route_language authHeader (Some language) w)))
       = Some u'
       /\ User.preferredLanguage u' = language
       /\ User.email u' = User.email u.
Proof.
  intros Ha Hid Hlen Hl. unfold route_language. rewrite Ha.
  unfold try_catch_return. rewrite (truthy_true _ Hid). cbn [negb].
  assert (Hlang : Js.truthy language = true).
  { apply truthy_true. intros ->. cbn in Hlen. lia. }
  rewrite Hlang. cbn [negb orb].
  destruct (Nat.ltb_spec (String.length language) 2) as [Hlt | _]; [lia |].
  unfold bind. rewrite (setLanguagePreference_stored _ language w u Hl).
  cbn [fst snd ret users set_users]. split; [reflexivity |].
  rewrite lookup_id_map_set_language, Hl. cbn [option_map].
  eexists. split; [reflexivity |].
  assert (Hu : User.id u = JwtPayload.userId claims).
  { unfold prisma.lookup_id in Hl. apply find_some in Hl as [_ Heq].
    apply String.eqb_eq in Heq. exact Heq. }
  unfold prisma.set_language. rewrite Hu, String.eqb_refl. cbn. auto.
Qed.

(** X17: what the language endpoint refuses.  A request that the
    middleware stops, or whose language is missing, empty or a single
    character, is answered with 400, 401 or 403 and reaches the storage
    with no call.  An authenticated request for a user that is not stored
    is answered with 500 "Internal server error" and changes no row. *)
Theorem route_language_refusals
    (authHeader : option string) (bodyLanguage : option string) (w : World) :
  ((forall claims, authenticateToken authHeader w <> Next claims)
   \/ bodyLanguage = None
   \/ (exists language, bodyLanguage = Some language /\ String.length language < 2) ->
   (status (fst (route_language authHeader bodyLanguage w)) = 400
    \/ status (fst (route_language authHeader bodyLanguage w)) = 401
    \/ status (fst (route_language authHeader bodyLanguage w)) = 403)
   /\ body_success (body (fst (route_language authHeader bodyLanguage w))) = false
   /\ snd (route_language authHeader bodyLanguage w) = w)
  /\ (forall claims language,
         authenticateToken authHeader w = Next claims ->
         JwtPayload.userId claims <> "" ->
         bodyLanguage = Some language ->
         2 <= String.length language ->
         prisma.lookup_id (JwtPayload.userId claims) (users w) = None ->
         fst (route_language authHeader bodyLanguage w)
         = respond 500 (JsonResult (failure "Internal server error"))
         /\ users (snd (route_language authHeader bodyLanguage w)) = users w).
Proof.
  split.
  - intros Hrefused. unfold route_language.
    destruct (authenticateToken authHeader w) as [s b | claims] eqn:Ha.
    + unfold authenticateToken in Ha.
      destruct (bearer_token authHeader) as [tok |];
        [destruct (negb (Js.truthy tok));
         [| destruct (jwt_verify tok (jwtSecret_of (env w)) (clock w)) as [c | err]] |];
        inversion Ha; subst; cbn; auto.
    + unfold try_catch_return.
      destruct (Js.truthy (JwtPayload.userId claims)); cbn [negb]; [| cbn; auto].
      destruct Hrefused as [Hno | [-> | (language & -> & Hshort)]].
      * destruct (Hno claims eq_refl).
      * cbn. auto.
      * destruct (Nat.ltb_spec (String.length language) 2) as [_ | Hge]; [| lia].
        rewrite orb_true_r. cbn. auto.
  - intros claims language Ha Hid -> Hlen Hl. unfold route_language. rewrite Ha.
    unfold try_catch_return. rewrite (truthy_true _ Hid). cbn [negb].
    assert (Hlang : Js.truthy language = true).
    { apply truthy_true. intros ->. cbn in Hlen. lia. }
    rewrite Hlang. cbn [negb orb].
    destruct (Nat.ltb_spec (String.length language) 2) as [Hlt | _]; [lia |].
    unfold bind. rewrite (setLanguagePreference_unknown _ language w Hl).
    cbn. auto.
Qed.

End RouteProperties.

(** * Properties of the client *)

Section ClientProperties.

Context `{Zod} `{Json}.

(** ** RegisterForm: what a submitted registration satisfies *)

Lemma trimStart_length (s : string) : String.length (Js.trimStart s) <= String.length s.
Proof.
  induction s as [| c r IH]; [cbn; lia |].
  cbn [Js.trimStart]. destruct (Js.is_white_space c); cbn [String.length]; lia.
Qed.

Lemma trimEnd_length (s : string) : String.length (Js.trimEnd s) <= String.length s.
Proof.
  induction s as [| c r IH]; [cbn; lia |].
  cbn [Js.trimEnd]. destruct (Js.trimEnd r) as [| d t].
  - destruct (Js.is_white_space c); cbn [String.length] in *; lia.
  - cbn [String.length] in *. lia.
Qed.

Lemma trim_length (s : string) : String.length (Js.trim s) <= String.length s.
Proof.
  unfold Js.trim. pose proof (trimEnd_length (Js.trimStart s)).
  pose proof (trimStart_length s). lia.
Qed.

Lemma app_eq_nil_l {A : Type} (xs ys : list A) : (xs ++ ys)%list = [] -> xs = [] /\ ys = [].
Proof. destruct xs; [auto | discriminate]. Qed.

(** When [validateForm] accepts, each of its tests has passed. *)
Lemma validateForm_accepts (formData : RegisterForm.FormData) (confirmPassword : string) :
  RegisterForm.validateForm formData confirmPassword = true ->
  (String.length (Js.trim (RegisterForm.name formData)) <? 2)%nat = false
  /\ RegisterForm.email_shape (RegisterForm.email formData) = true
  /\ (String.length (RegisterForm.password formData) <? 8)%nat = false
  /\ RegisterForm.password formData = confirmPassword
  /\ RegisterForm.preferredLanguage formData <> ""
  /\ RegisterForm.userType formData <> ""
  /\ validateForm_phoneNumber (RegisterForm.phoneNumber formData) = None.
Proof.
  unfold RegisterForm.validateForm, Js.keys. intros Hlen.
  apply Nat.eqb_eq in Hlen. rewrite length_map in Hlen.
  apply length_zero_iff_nil in Hlen. unfold RegisterForm.newErrors in Hlen.
  apply app_eq_nil_l in Hlen as [Hname Hlen].
  apply app_eq_nil_l in Hlen as [Hemail Hlen].
  apply app_eq_nil_l in Hlen as [Hpw Hlen].
  apply app_eq_nil_l in Hlen as [Hcp Hlen].
  apply app_eq_nil_l in Hlen as [Hlang Hlen].
  apply app_eq_nil_l in Hlen as [Hty Hphone].
  repeat split.
  - destruct (negb (Js.truthy (Js.trim (RegisterForm.name formData)))); [discriminate |].
    destruct (String.length (Js.trim (RegisterForm.name formData)) <? 2)%nat;
      [discriminate | reflexivity].
  - destruct (negb (Js.truthy (RegisterForm.email formData))); [discriminate |].
    destruct (RegisterForm.email_shape (RegisterForm.email formData));
      [reflexivity | discriminate].
  - destruct (negb (Js.truthy (RegisterForm.password formData))); [discriminate |].
    destruct (String.length (RegisterForm.password formData) <? 8)%nat;
      [discriminate | reflexivity].
  - destruct (negb (Js.truthy confirmPassword)); [discriminate |].
    destruct (String.eqb_spec (RegisterForm.password formData) confirmPassword);
      [assumption | discriminate].
  - intros E. rewrite E in Hlang. discriminate.
  - intros E. rewrite E in Hty. discriminate.
  - destruct (validateForm_phoneNumber (RegisterForm.phoneNumber formData));
      [discriminate | reflexivity].
Qed.

(** X18: every registration the form submits gets past the server's
    tests on the password length and on the name: the only messages the
    server's schema can still raise for it are those on the e-mail, the
    language code and the user type, and its name passes the server's
    second, trimmed, test.  Its password was typed twice, and its phone
    number is absent or is ten digits. *)
Theorem submitted_registration_passes_the_server_length_tests
    (formData : RegisterForm.FormData) (confirmPassword : string)
    (userData : UserRegistrationData) :
  RegisterForm.handleSubmit formData confirmPassword = Some userData ->
  (forall msg, In msg (UserRegistrationSchema_errors userData) ->
               msg <> "Password must be at least 8 characters"
               /\ msg <> "Name must be at least 2 characters")
  /\ (String.length (Js.trim (name userData)) <? 2)%nat = false
  /\ password userData = confirmPassword
  /\ (phoneNumber userData = None
      \/ exists digits, phoneNumber userData = Some digits
                        /\ String.length digits = 10
                        /\ Js.all_digits digits = true).
Proof.
  unfold RegisterForm.handleSubmit.
  destruct (RegisterForm.validateForm formData confirmPassword) eqn:Hv; [| discriminate].
  cbn [negb]. intros [= <-].
  apply validateForm_accepts in Hv as (Hname & _ & Hpw & Hcp & _ & _ & Hphone).
  cbn [name password phoneNumber].
  split; [| split; [exact Hname | split; [exact Hcp |]]].
  - intros msg Hin. unfold UserRegistrationSchema_errors in Hin.
    cbn [email name password preferredLanguage userType] in Hin.
    apply Nat.ltb_ge in Hpw, Hname.
    pose proof (trim_length (RegisterForm.name formData)) as Htrim.
    destruct (Nat.leb_spec 8 (String.length (RegisterForm.password formData))); [| lia].
    destruct (Nat.leb_spec 2 (String.length (RegisterForm.name formData))); [| lia].
    cbn [app] in Hin.
    apply in_app_or in Hin as [Hin | Hin].
    { destruct (zod_is_email (RegisterForm.email formData)); [destruct Hin |].
      destruct Hin as [<- | []]. split; discriminate. }
    apply in_app_or in Hin as [Hin | Hin].
    { destruct (2 <=? String.length (RegisterForm.preferredLanguage formData))%nat;
        [destruct Hin |].
      destruct Hin as [<- | []]. split; discriminate. }
    destruct ((RegisterForm.userType formData =? "VENDOR")
              || (RegisterForm.userType formData =? "BUYER")); [destruct Hin |].
    destruct Hin as [<- | []]. split; discriminate.
  - unfold handleSubmit_phoneNumber.
    destruct (Js.truthy (RegisterForm.phoneNumber formData)) eqn:Ht; [| left; reflexivity].
    right. eexists. split; [reflexivity |].
    unfold validateForm_phoneNumber, Js.test_ten_digits in Hphone. rewrite Ht in Hphone.
    cbn [andb] in Hphone.
    destruct (Nat.eqb_spec
                (String.length (Js.strip_non_digits (RegisterForm.phoneNumber formData))) 10)
      as [E | E].
    + split; [exact E |]. clear. induction (RegisterForm.phoneNumber formData) as [| c r IH];
        [reflexivity |].
      cbn [Js.strip_non_digits]. destruct (Js.is_digit c) eqn:Ed; [| exact IH].
      cbn [Js.all_digits]. rewrite Ed, IH. reflexivity.
    + cbn in Hphone. discriminate.
Qed.

(** ** RegisterForm: the e-mail pattern *)

Lemma has_char_non_space_run (c : ascii) (s : string) :
  has_char c (RegisterForm.non_space_run s) = true -> has_char c s = true.
Proof.
  induction s as [| d r IH]; [discriminate |].
  cbn [RegisterForm.non_space_run]. destruct (Js.is_white_space d); [discriminate |].
  cbn [has_char]. intros Hc. apply orb_true_iff in Hc as [Hc | Hc].
  - rewrite Hc. reflexivity.
  - rewrite (IH Hc). apply orb_true_r.
Qed.

Lemma non_space_run_length (s : string) :
  String.length (RegisterForm.non_space_run s) <= String.length s.
Proof.
  induction s as [| d r IH]; [cbn; lia |].
  cbn [RegisterForm.non_space_run]. destruct (Js.is_white_space d); cbn [String.length]; lia.
Qed.

Lemma dot_then_more_inv (s : string) :
  RegisterForm.dot_then_more s = true ->
  has_char "." s = true /\ 2 <= String.length s.
Proof.
  induction s as [| c r IH]; [discriminate |].
  cbn [RegisterForm.dot_then_more has_char String.length].
  intros Hd. apply orb_true_iff in Hd as [Hd | Hd].
  - apply andb_true_iff in Hd as [Hc Hr]. rewrite Hc. split; [reflexivity |].
    destruct r; [discriminate | cbn; lia].
  - destruct (IH Hd) as [Hh Hl]. rewrite Hh, orb_true_r. split; [reflexivity | lia].
Qed.

Lemma domain_matches_inv (s : string) :
  RegisterForm.domain_matches s = true ->
  has_char "." s = true /\ 3 <= String.length s.
Proof.
  unfold RegisterForm.domain_matches. intros Hd.
  pose proof (non_space_run_length s) as Hlen.
  pose proof (has_char_non_space_run "." s) as Hhas.
  destruct (RegisterForm.non_space_run s) as [| c r]; [discriminate |].
  destruct (dot_then_more_inv r Hd) as [Hdot Hr].
  split.
  - apply Hhas. cbn [has_char]. rewrite Hdot. apply orb_true_r.
  - cbn [String.length] in Hlen. lia.
Qed.

Lemma email_search_inv (s : string) (prev : bool) :
  RegisterForm.email_search prev s = true ->
  has_char "@" s = true /\ has_char "." s = true
  /\ 5 <= String.length s + (if prev then 1 else 0).
Proof.
  revert prev. induction s as [| c r IH]; [discriminate |].
  intros prev. cbn [RegisterForm.email_search has_char String.length].
  intros Hs. apply orb_true_iff in Hs as [Hs | Hs].
  - apply andb_true_iff in Hs as [Hs Hd]. apply andb_true_iff in Hs as [Hp Hc].
    destruct (domain_matches_inv r Hd) as [Hdot Hlen].
    rewrite Hc, Hdot, orb_true_r, Hp. repeat split. lia.
  - destruct (IH _ Hs) as (Hat & Hdot & Hlen).
    rewrite Hat, Hdot, !orb_true_r. repeat split.
    destruct (negb (Js.is_white_space c)), prev; lia.
Qed.

(** X19: an e-mail the form's pattern accepts holds an [@] and a dot and
    has at least five characters; so the form refuses the empty string
    and every string without an [@] or without a dot. *)
Theorem email_shape_needs_at_and_dot (s : string) :
  RegisterForm.email_shape s = true ->
  has_char "@" s = true /\ has_char "." s = true /\ 5 <= String.length s.
Proof.
  unfold RegisterForm.email_shape. intros Hs.
  destruct (email_search_inv s false Hs) as (Hat & Hdot & Hlen).
  repeat split; [exact Hat | exact Hdot | lia].
Qed.

(** ** AuthContext and the browser's store *)

Lemma get_set_property_same (k v : string) (o : Js.object) :
  Js.get k (set_property k v o) = Some v.
Proof.
  induction o as [| [k' v'] r IH]; cbn [set_property Js.get].
  - rewrite String.eqb_refl. reflexivity.
  - destruct (String.eqb_spec k' k) as [E | E]; cbn [Js.get].
    + rewrite String.eqb_refl. reflexivity.
    + destruct (String.eqb_spec k' k); [contradiction | exact IH].
Qed.

Lemma get_set_property_other (k k0 v : string) (o : Js.object) :
  k0 <> k -> Js.get k0 (set_property k v o) = Js.get k0 o.
Proof.
  intros Hne. induction o as [| [k' v'] r IH]; cbn [set_property Js.get].
  - destruct (String.eqb_spec k k0); [congruence | reflexivity].
  - destruct (String.eqb_spec k' k) as [E | E]; cbn [Js.get].
    + subst k'. destruct (String.eqb_spec k k0); [congruence | reflexivity].
    + destruct (k' =? k0); [reflexivity | exact IH].
Qed.

Lemma get_remove_property_same (k : string) (o : Js.object) :
  Js.get k (remove_property k o) = None.
Proof.
  induction o as [| [k' v'] r IH]; [reflexivity |].
  cbn [remove_property filter fst]. destruct (String.eqb_spec k' k) as [E | E]; cbn [negb].
  - exact IH.
  - cbn [Js.get]. destruct (String.eqb_spec k' k); [contradiction | exact IH].
Qed.

Lemma get_remove_property_none (k k0 : string) (o : Js.object) :
  Js.get k0 o = None -> Js.get k0 (remove_property k o) = None.
Proof.
  induction o as [| [k' v'] r IH]; [reflexivity |].
  cbn [remove_property filter fst Js.get].
  destruct (k' =? k0) eqn:E0; [discriminate |]. intros Hnone.
  destruct (k' =? k); cbn [negb]; [exact (IH Hnone) |].
  cbn [Js.get]. rewrite E0. exact (IH Hnone).
Qed.

(** X20: [logout] always ends the session on the client, whether the
    API call succeeded or failed: no user is left, the three stored items
    are gone, the provider is no longer loading, and the next request
    carries no Authorization header. *)
Theorem client_logout_always_clears_the_session
    (A : Type) (answer : AuthContext.Settled A) (st : AuthContext.State) :
  AuthContext.user (AuthContext.logout answer st) = None
  /\ AuthContext.isAuthenticated (AuthContext.logout answer st) = false
  /\ AuthContext.isLoading (AuthContext.logout answer st) = false
  /\ Js.get "authToken" (AuthContext.localStorage (AuthContext.logout answer st)) = None
  /\ Js.get "refreshToken" (AuthContext.localStorage (AuthContext.logout answer st)) = None
  /\ Js.get "userData" (AuthContext.localStorage (AuthContext.logout answer st)) = None
  /\ request_interceptor (AuthContext.localStorage (AuthContext.logout answer st)) = None.
Proof.
  assert (Hls : AuthContext.localStorage (AuthContext.logout answer st)
                = remove_property "userData"
                    (remove_property "refreshToken"
                       (remove_property "authToken" (AuthContext.localStorage st)))).
  { destruct answer; reflexivity. }
  assert (Htok : Js.get "authToken" (AuthContext.localStorage (AuthContext.logout answer st))
                 = None).
  { rewrite Hls. do 2 apply get_remove_property_none. apply get_remove_property_same. }
  split; [destruct answer; reflexivity |].
  split; [destruct answer; reflexivity |].
  split; [destruct answer; reflexivity |].
  split; [exact Htok |].
  split; [rewrite Hls; apply get_remove_property_none, get_remove_property_same |].
  split; [rewrite Hls; apply get_remove_property_same |].
  unfold request_interceptor. rewrite Htok. reflexivity.
Qed.


(** X22: after a successful login the client holds the session the
    server sent: the user, the access token under [authToken], the
    serialized user under [userData], the refresh token under
    [refreshToken] when one came, and the next request carries
    [Bearer] followed by the access token. *)
Theorem client_login_stores_the_session
    (u : Js.object) (tok : string) (rtok : option string) (msg : option string)
    (st : AuthContext.State) :
  tok <> "" ->
  let result :=
    {| success := true; user := Some u; token := Some tok; refreshToken := rtok;
       error := msg |} in
  let st' := fst (AuthContext.login (AuthContext.Fulfilled result) st) in
  AuthContext.user st' = Some u
  /\ AuthContext.isAuthenticated st' = true
  /\ Js.get "authToken" (AuthContext.localStorage st') = Some tok
  /\ Js.get "userData" (AuthContext.localStorage st') = Some (JSON_stringify u)
  /\ (forall r, rtok = Some r -> r <> "" ->
                Js.get "refreshToken" (AuthContext.localStorage st') = Some r)
  /\ request_interceptor (AuthContext.localStorage st') = Some ("Bearer " ++ tok).
Proof.
  intros Hne result st'.
  assert (Htruthy : Js.truthy tok = true).
  { unfold Js.truthy. destruct (String.eqb_spec tok ""); [contradiction | reflexivity]. }
  assert (Htok : Js.get "authToken" (AuthContext.localStorage st') = Some tok).
  { subst st' result. unfold AuthContext.login, AuthContext.store_session.
    rewrite Htruthy.
    destruct rtok as [r |]; [destruct (Js.truthy r) |]; cbn;
      rewrite ?get_set_property_other by discriminate;
      apply get_set_property_same. }
  split; [| split; [| split; [exact Htok | split; [| split]]]].
  - subst st' result. unfold AuthContext.login, AuthContext.store_session.
    rewrite Htruthy. destruct rtok as [r |]; [destruct (Js.truthy r) |]; reflexivity.
  - subst st' result. unfold AuthContext.login, AuthContext.store_session.
    rewrite Htruthy. destruct rtok as [r |]; [destruct (Js.truthy r) |]; reflexivity.
  - subst st' result. unfold AuthContext.login, AuthContext.store_session.
    rewrite Htruthy.
    destruct rtok as [r |]; [destruct (Js.truthy r) |]; cbn;
      rewrite ?get_set_property_other by discriminate;
      apply get_set_property_same.
  - intros r -> Hr. subst st' result.
    unfold AuthContext.login, AuthContext.store_session. rewrite Htruthy.
    assert (Hrt : Js.truthy r = true).
    { unfold Js.truthy. destruct (String.eqb_spec r ""); [contradiction | reflexivity]. }
    rewrite Hrt. cbn. apply get_set_property_same.
  - unfold request_interceptor. rewrite Htok, Htruthy. reflexivity.
Qed.

(** X23: when the provider mounts, a stored session whose user data
    cannot be parsed is thrown away, the three stored items with it; and
    a provider that starts without a user has one after mounting only if
    a token and user data that parses to that user were stored. *)
Theorem mount_restores_only_a_readable_session (st : AuthContext.State) :
  (forall tok userData,
      Js.get "authToken" (AuthContext.localStorage st) = Some tok -> tok <> "" ->
      Js.get "userData" (AuthContext.localStorage st) = Some userData -> userData <> "" ->
      JSON_parse userData = None ->
      AuthContext.user (AuthContext.mount st) = AuthContext.user st
      /\ Js.get "authToken" (AuthContext.localStorage (AuthContext.mount st)) = None
      /\ Js.get "refreshToken" (AuthContext.localStorage (AuthContext.mount st)) = None
      /\ Js.get "userData" (AuthContext.localStorage (AuthContext.mount st)) = None)
  /\ (AuthContext.user st = None ->
      forall u, AuthContext.user (AuthContext.mount st) = Some u ->
      exists tok userData,
        Js.get "authToken" (AuthContext.localStorage st) = Some tok /\ tok <> ""
        /\ Js.get "userData" (AuthContext.localStorage st) = Some userData
        /\ JSON_parse userData = Some u)
  /\ AuthContext.isLoading (AuthContext.mount st) = false.
Proof.
  split; [| split].
  - intros tok userData Htok Hne Hdata Hne' Hparse. unfold AuthContext.mount.
    rewrite Htok, Hdata.
    assert (Ht : Js.truthy tok = true).
    { unfold Js.truthy. destruct (String.eqb_spec tok ""); [contradiction | reflexivity]. }
    assert (Hd : Js.truthy userData = true).
    { unfold Js.truthy. destruct (String.eqb_spec userData ""); [contradiction | reflexivity]. }
    rewrite Ht, Hd, Hparse. cbn.
    split; [reflexivity |].
    split; [do 2 apply get_remove_property_none; apply get_remove_property_same |].
    split; [apply get_remove_property_none, get_remove_property_same |].
    apply get_remove_property_same.
  - intros Hnone u. unfold AuthContext.mount.
    destruct (Js.get "authToken" (AuthContext.localStorage st)) as [tok |] eqn:Htok;
      [| cbn; rewrite Hnone; discriminate].
    destruct (Js.get "userData" (AuthContext.localStorage st)) as [userData |] eqn:Hdata;
      [| cbn; rewrite Hnone; discriminate].
    destruct (Js.truthy tok) eqn:Ht; cbn [andb]; [| cbn; rewrite Hnone; discriminate].
    destruct (Js.truthy userData); [| cbn; rewrite Hnone; discriminate].
    destruct (JSON_parse userData) as [parsed |] eqn:Hparse; cbn.
    + intros [= <-]. exists tok, userData.
      split; [reflexivity |]. split; [intros ->; discriminate |].
      split; [reflexivity | exact Hparse].
    + rewrite Hnone. discriminate.
  - unfold AuthContext.mount. reflexivity.
Qed.


End ClientProperties.

(** * The service run on the sample instances *)

Section Examples.

#[local] Existing Instance Sample.zod.
#[local] Existing Instance Sample.bcrypt.
#[local] Existing Instance Sample.jwt.
#[local] Existing Instance Sample.database.

Import Sample.

(** C1, witness: the spec's example registration in a development
    deployment with an empty users table. *)
Lemma register_valid_input_succeeds_witness :
  passes_validation ann = true
  /\ prisma.lookup_email (email ann) (users (world development [])) = None
  /\ secrets_missing_in_production (env (world development [])) = false
  /\ exists (u : Js.object) (newId : string),
       fst (AuthService_register ann (world development [])) =
         {| success := true;
            user := Some u;
            token := Some (jwt_sign (claims_of newId None)
                                    "test-secret-key-for-development" 900 1700000000);
            refreshToken := Some (jwt_sign (claims_of newId (Some "refresh"))
                                           "test-refresh-secret-key-for-development"
                                           604800 1700000000);
            error := None |}
       /\ Js.get "id" u = Some newId
       /\ Js.get "email" u = Some "a@test.io"
       /\ Js.get "name" u = Some "Ann"
       /\ Js.get "userType" u = Some "BUYER"
       /\ Js.get "preferredLanguage" u = Some "hi".
Proof.
  split; [reflexivity |]. split; [reflexivity |]. split; [reflexivity |].
  apply (register_valid_input_succeeds ann (world development [])); reflexivity.
Defined.

(** C1, counterexample: the same valid registration with a new e-mail, in
    production with no secret set, is answered with a failure. *)
Lemma register_valid_input_fails_in_unconfigured_production :
  passes_validation ann = true
  /\ prisma.lookup_email (email ann) (users (world production_unconfigured [])) = None
  /\ fst (AuthService_register ann (world production_unconfigured []))
     = failure "Server configuration error"
  /\ success (fst (AuthService_register ann (world production_unconfigured []))) = false.
Proof. repeat split; reflexivity. Qed.

(** C2, witness: an unknown e-mail and Ann's e-mail with a wrong password. *)
Lemma login_failures_are_indistinguishable_witness :
  fst (AuthService_login nobody_login (world development [stored_ann]))
  = fst (AuthService_login ann_wrong_login (world development [stored_ann]))
  /\ success (fst (AuthService_login nobody_login (world development [stored_ann]))) = false
  /\ error (fst (AuthService_login nobody_login (world development [stored_ann])))
     = Some "Invalid email or password"
  /\ error (fst (AuthService_login ann_wrong_login (world development [stored_ann])))
     = Some "Invalid email or password".
Proof.
  apply (login_failures_are_indistinguishable
           nobody_login (world development [stored_ann])
           ann_wrong_login (world development [stored_ann]) stored_ann);
    reflexivity.
Defined.

(** C3, at the failing input: production, no secret set.  [register] and
    [login] answer with the configuration error; [refreshToken] accepts a
    token signed with the development refresh secret and signs the new
    access token with the development secret; [authenticateToken] lets a
    token signed with the development secret through. *)
Example unconfigured_production_still_refreshes_and_authenticates :
  is_production production_unconfigured = true
  /\ JWT_SECRET production_unconfigured = None
  /\ JWT_REFRESH_SECRET production_unconfigured = None
  /\ fst (AuthService_register ann (world production_unconfigured []))
     = failure "Server configuration error"
  /\ fst (AuthService_login ann_login (world production_unconfigured [stored_ann]))
     = failure "Server configuration error"
  /\ fst (AuthService_refreshToken ann_refresh_token
            (world production_unconfigured [stored_ann]))
     = {| success := true;
          user := Some (user_object stored_ann);
          token := Some (jwt_sign (claims_of "user-0" None) default_jwt_secret
                                  expiresIn_15m 1700000000);
          refreshToken := None;
          error := None |}
  /\ authenticateToken (Some ("Bearer " ++ ann_access_token))
       (world production_unconfigured [stored_ann])
     = Next (claims_of "user-0" None).
Proof. repeat split; reflexivity. Qed.

(** C4, counterexample: a registration with the phone number [123], three
    digits once stripped, succeeds. *)
Lemma register_accepts_a_three_digit_phoneNumber :
  phoneNumber (with_phoneNumber (Some "123") ann) = Some "123"
  /\ String.length (Js.strip_non_digits "123") = 3
  /\ success (fst (AuthService_register (with_phoneNumber (Some "123") ann)
                     (world development []))) = true
  /\ error (fst (AuthService_register (with_phoneNumber (Some "123") ann)
                   (world development []))) = None.
Proof. repeat split; reflexivity. Qed.

(** C4, witness: Ann registers with the phone number [123]; the answer is
    the one she gets without a phone number, and the row stored holds
    [123]. *)
Lemma register_does_not_validate_phoneNumber_witness :
  fst (AuthService_register (with_phoneNumber (Some "123") ann) (world development []))
  = fst (AuthService_register ann (world development []))
  /\ (exists row,
        users (snd (AuthService_register (with_phoneNumber (Some "123") ann)
                      (world development [])))
        = [row]
        /\ User.email row = "a@test.io"
        /\ User.phoneNumber row = Some "123")
  /\ validateForm_phoneNumber "123" <> None.
Proof.
  split; [| split].
  - exact (proj1 (register_does_not_validate_phoneNumber ann (world development []))
             (Some "123")).
  - apply (proj1 (proj2 (register_does_not_validate_phoneNumber
                           (with_phoneNumber (Some "123") ann) (world development [])))).
    reflexivity.
  - intros Hnone.
    apply (proj2 (proj2 (register_does_not_validate_phoneNumber ann (world development []))))
      in Hnone.
    destruct Hnone as [E | E]; discriminate E.
Defined.

(** C5, at the failing input: the password [ab    cd] holds four
    characters that are not white space, and the registration succeeds. *)
Example register_accepts_a_password_with_inner_white_space :
  password ann_spaced_password = "ab    cd"
  /\ Js.count_non_white_space (password ann_spaced_password) = 4
  /\ passes_validation ann_spaced_password = true
  /\ success (fst (AuthService_register ann_spaced_password (world development []))) = true
  /\ users (snd (AuthService_register ann_spaced_password (world development [])))
     = [prisma.new_row "user-0"
          {| UserCreateInput.email := "a@test.io";
             UserCreateInput.passwordHash := bcrypt_hash "ab    cd" 12 7;
             UserCreateInput.name := "Ann";
             UserCreateInput.userType := "BUYER";
             UserCreateInput.preferredLanguage := "hi";
             UserCreateInput.phoneNumber := None |}].
Proof. repeat split; reflexivity. Qed.

(** C6, witness: a password of five characters. *)
Lemma register_short_password_writes_nothing_witness :
  String.length (password ann_short_password) < 8
  /\ success (fst (AuthService_register ann_short_password (world development []))) = false
  /\ error (fst (AuthService_register ann_short_password (world development []))) <> None
  /\ calls (snd (AuthService_register ann_short_password (world development []))) = []
  /\ users (snd (AuthService_register ann_short_password (world development []))) = [].
Proof.
  assert (Hlen : String.length (password ann_short_password) < 8) by (cbn; lia).
  split; [exact Hlen |].
  exact (register_short_password_writes_nothing ann_short_password (world development [])
           Hlen).
Defined.

(** C7, counterexample: the e-mail is stored already and the password is
    too short; the failure is the validation error, not the
    duplicate-e-mail error. *)
Lemma register_taken_email_with_invalid_input_reports_validation :
  prisma.lookup_email (email ann_short_password) (users (world development [stored_ann]))
  = Some stored_ann
  /\ fst (AuthService_register ann_short_password (world development [stored_ann]))
     = failure "Invalid registration data: Password must be at least 8 characters"
  /\ fst (AuthService_register ann_short_password (world development [stored_ann]))
     <> failure "User with this email already exists".
Proof. repeat split; try reflexivity. discriminate. Qed.

(** C7, witness: Ann registers a second time. *)
Lemma register_taken_email_creates_nothing_witness :
  prisma.lookup_email (email ann) (users (world development [stored_ann])) = Some stored_ann
  /\ passes_validation ann = true
  /\ success (fst (AuthService_register ann (world development [stored_ann]))) = false
  /\ writes (calls (snd (AuthService_register ann (world development [stored_ann])))) = []
  /\ users (snd (AuthService_register ann (world development [stored_ann]))) = [stored_ann]
  /\ fst (AuthService_register ann (world development [stored_ann]))
     = failure "User with this email already exists".
Proof.
  assert (Htaken : prisma.lookup_email (email ann) (users (world development [stored_ann]))
                   = Some stored_ann) by reflexivity.
  assert (Hv : passes_validation ann = true) by reflexivity.
  destruct (register_taken_email_creates_nothing ann (world development [stored_ann])
              stored_ann Htaken) as (Hfail & Hwrites & Husers & Hdup).
  repeat split; auto.
Defined.

(** C8, witness: a string that is no token, an expired refresh token, a
    token without the type marker signed with the refresh secret, a
    refresh token of a user that is not stored, and Ann's refresh token. *)
Lemma refreshToken_outcomes_witness :
  fst (AuthService_refreshToken "not-a-token" (world development [stored_ann]))
  = failure "Invalid or expired refresh token"
  /\ fst (AuthService_refreshToken ann_expired_refresh_token (world development [stored_ann]))
     = failure "Invalid or expired refresh token"
  /\ fst (AuthService_refreshToken untyped_token_under_refresh_secret
            (world development [stored_ann]))
     = failure "Invalid refresh token"
  /\ fst (AuthService_refreshToken ghost_refresh_token (world development [stored_ann]))
     = failure "User not found"
  /\ token (fst (AuthService_refreshToken ann_refresh_token (world development [stored_ann])))
     = Some ann_access_token
  /\ refreshToken (fst (AuthService_refreshToken ann_refresh_token
                          (world development [stored_ann])))
     = None.
Proof.
  split; [| split; [| split; [| split]]].
  - apply (proj1 (refreshToken_outcomes "not-a-token" (world development [stored_ann]))
             JsonWebTokenError).
    reflexivity.
  - apply (proj1 (refreshToken_outcomes ann_expired_refresh_token
                    (world development [stored_ann])) TokenExpiredError).
    reflexivity.
  - apply (proj1 (proj2 (refreshToken_outcomes untyped_token_under_refresh_secret
                           (world development [stored_ann])))
             (claims_of "user-0" None)); [reflexivity | discriminate].
  - apply (proj1 (proj2 (proj2 (refreshToken_outcomes ghost_refresh_token
                                  (world development [stored_ann]))))
             (claims_of "user-9" (Some "refresh"))); reflexivity.
  - assert (Hok := proj1 (proj2 (proj2 (proj2 (refreshToken_outcomes ann_refresh_token
                                                 (world development [stored_ann])))))
                     (claims_of "user-0" (Some "refresh")) stored_ann).
    rewrite Hok by reflexivity.
    split; reflexivity.
Defined.

(** C9, witness: a successful login, the call that reads the stored hash. *)
Lemma successful_result_user_is_sanitized_witness :
  success (fst (run_call (CallLogin ann_login) (world development [stored_ann]))) = true
  /\ exists u : Js.object,
       user (fst (run_call (CallLogin ann_login) (world development [stored_ann]))) = Some u
       /\ Js.keys u = ["id"; "email"; "name"; "userType"; "preferredLanguage"]
       /\ Js.get "passwordHash" u = None.
Proof.
  split; [reflexivity |].
  apply (successful_result_user_is_sanitized (CallLogin ann_login)
           (world development [stored_ann])).
  reflexivity.
Defined.

(** C10, witness: the spec's example registration in production with no
    secret set. *)
Lemma register_unconfigured_production_keeps_the_row_witness :
  fst (AuthService_register ann (world production_unconfigured []))
  = failure "Server configuration error"
  /\ exists row,
       users (snd (AuthService_register ann (world production_unconfigured []))) = [row]
       /\ User.email row = "a@test.io"
       /\ prisma.lookup_email "a@test.io"
            (users (snd (AuthService_register ann (world production_unconfigured []))))
          = Some row.
Proof.
  assert (Hv : passes_validation ann = true) by reflexivity.
  assert (Hfree : prisma.lookup_email (email ann) (users (world production_unconfigured []))
                  = None) by reflexivity.
  assert (Hprod : NODE_ENV (env (world production_unconfigured [])) = Some "production")
    by reflexivity.
  assert (Hunset : JWT_SECRET (env (world production_unconfigured [])) = None
                   \/ JWT_REFRESH_SECRET (env (world production_unconfigured [])) = None)
    by (left; reflexivity).
  destruct (register_unconfigured_production_keeps_the_row
              ann (world production_unconfigured []) Hv Hfree Hprod Hunset)
    as (data & row & Hres & Hcalls & Hemail & Husers & Hrow & Hlookup).
  split; [exact Hres |].
  exists row. split; [exact Husers |]. split; [| exact Hlookup].
  rewrite Hrow. exact Hemail.
Defined.

End Examples.

(** * The further properties on the sample instances *)

Section MoreExamples.

#[local] Existing Instance Sample.zod.
#[local] Existing Instance Sample.bcrypt.
#[local] Existing Instance Sample.jwt.
#[local] Existing Instance Sample.database.
#[local] Existing Instance SampleClient.json.

Import Sample SampleClient.

(** X1, witness: Ann registers, then logs in. *)
Lemma register_then_login_round_trip_witness :
  success (fst (AuthService_register ann (world development []))) = true
  /\ success (fst (AuthService_login ann_login
                     (snd (AuthService_register ann (world development []))))) = true
  /\ user (fst (AuthService_login ann_login
                  (snd (AuthService_register ann (world development [])))))
     = Some ann_object.
Proof.
  assert (Hv : passes_validation ann = true) by reflexivity.
  assert (Hfree : prisma.lookup_email (email ann) (users (world development [])) = None)
    by reflexivity.
  assert (Hconf : secrets_missing_in_production (env (world development [])) = false)
    by reflexivity.
  assert (Hcmp : bcrypt_compare (password ann)
                   (bcrypt_hash (password ann) 12 (entropy (world development []))) = true)
    by reflexivity.
  destruct (register_then_login_round_trip ann (world development []) Hv Hfree Hconf Hcmp)
    as (Hreg & Hlogin & Huser).
  split; [exact Hreg |]. split; [exact Hlogin |].
  etransitivity; [exact Huser | reflexivity].
Defined.

(** X2, witness: Ann logs in and uses the refresh token at once. *)
Lemma login_refresh_token_is_accepted_witness :
  exists rtok,
    refreshToken (fst (AuthService_login ann_login (world development [stored_ann])))
    = Some rtok
    /\ fst (AuthService_refreshToken rtok
              (snd (AuthService_login ann_login (world development [stored_ann]))))
       = {| success := true;
            user := user (fst (AuthService_login ann_login
                                 (world development [stored_ann])));
            token := token (fst (AuthService_login ann_login
                                   (world development [stored_ann])));
            refreshToken := None;
            error := None |}.
Proof.
  apply (login_refresh_token_is_accepted ann_login (world development [stored_ann])
           stored_ann); reflexivity.
Defined.

(** X4, witness: two users with different e-mails; Ann registers again
    and Bob changes his language. *)
Lemma unique_emails_are_preserved_witness :
  NoDup (map User.email (users (snd (AuthService_register ann two_users))))
  /\ NoDup (map User.email
              (users (snd (AuthService_setLanguagePreference "user-1" "ta" two_users)))).
Proof.
  assert (Hnd : NoDup (map User.email (users two_users))).
  { repeat constructor; cbn; intuition discriminate. }
  destruct (unique_emails_are_preserved two_users Hnd) as (Hcall & Hlang & _).
  split; [exact (Hcall (CallRegister ann)) | exact (Hlang "user-1" "ta")].
Defined.

(** X6, witness: Ann switches to Tamil and logs in. *)
Lemma setLanguagePreference_then_login_witness :
  fst (AuthService_setLanguagePreference "user-0" "ta" (world development [stored_ann]))
  = Returned tt
  /\ exists obj : Js.object,
       user (fst (AuthService_login ann_login
                    (snd (AuthService_setLanguagePreference "user-0" "ta"
                            (world development [stored_ann])))))
       = Some obj
       /\ Js.get "preferredLanguage" obj = Some "ta"
       /\ Js.get "id" obj = Some "user-0"
       /\ Js.get "email" obj = Some "a@test.io"
       /\ Js.get "name" obj = Some "Ann"
       /\ Js.get "userType" obj = Some "BUYER".
Proof.
  apply (setLanguagePreference_then_login ann_login (world development [stored_ann])
           stored_ann "ta"); reflexivity.
Defined.

(** An id that is not stored. *)
Lemma setLanguagePreference_changes_one_column_witness :
  fst (AuthService_setLanguagePreference "user-9" "ta" two_users)
  = Thrown (PrismaException "P2025")
  /\ users (snd (AuthService_setLanguagePreference "user-9" "ta" two_users))
     = users two_users.
Proof.
  apply (proj2 (setLanguagePreference_changes_one_column "user-9" "ta" two_users)).
  reflexivity.
Defined.

(** X8, witness: Ann's access token after the scheme [Basic]. *)
Lemma authenticateToken_ignores_the_scheme_witness :
  authenticateToken (Some ("Basic " ++ ann_access_token)) (world development [stored_ann])
  = Next (claims_of "user-0" None).
Proof.
  assert (Hs : has_char " " "Basic" = false) by reflexivity.
  assert (Ht : has_char " " ann_access_token = false) by reflexivity.
  assert (Hne : ann_access_token <> "") by discriminate.
  etransitivity;
    [exact (authenticateToken_ignores_the_scheme "Basic" ann_access_token
              (world development [stored_ann]) Hs Ht Hne)
    | reflexivity].
Defined.

(** X9, witness: Ann's access token sent bare, without a scheme. *)
Lemma authenticateToken_requires_a_second_word_witness :
  authenticateToken (Some ann_access_token) (world development [stored_ann])
  = Respond 401 (failure "Access token required")
  /\ authenticateToken (Some "Bearer ") (world development [stored_ann])
     = Respond 401 (failure "Access token required").
Proof.
  destruct (authenticateToken_requires_a_second_word (world development [stored_ann]))
    as (_ & Hbare & Hempty).
  split.
  - apply Hbare. reflexivity.
  - apply (Hempty "Bearer"). reflexivity.
Defined.

(** X10, witness: the signed-in client's next request passes the
    middleware as Ann. *)
Lemma interceptor_header_reaches_the_middleware_witness :
  authenticateToken (request_interceptor (AuthContext.localStorage signed_in))
    (world development [stored_ann])
  = Next (claims_of "user-0" None)
  /\ authenticateToken (request_interceptor (AuthContext.localStorage signed_out))
       (world development [stored_ann])
     = Respond 401 (failure "Access token required").
Proof.
  destruct (interceptor_header_reaches_the_middleware
              (AuthContext.localStorage signed_in) (world development [stored_ann]))
    as (Hsent & _).
  destruct (interceptor_header_reaches_the_middleware
              (AuthContext.localStorage signed_out) (world development [stored_ann]))
    as (_ & Hnone).
  split.
  - etransitivity; [apply (Hsent ann_access_token); [reflexivity | discriminate | reflexivity]
                   | reflexivity].
  - apply Hnone. left. reflexivity.
Defined.

(** X12, witness: a login request without a password. *)
Lemma route_login_requires_both_fields_witness :
  route_login {| LoginBody.email := Some "a@test.io"; LoginBody.password := None |}
    (world development [stored_ann])
  = (respond 400 (JsonResult (failure "Email and password are required")),
     world development [stored_ann]).
Proof.
  apply route_login_requires_both_fields. right. reflexivity.
Defined.


(** X16, witness: Ann, authenticated, asks for the language [zz], which
    is no language of the application. *)
Lemma route_language_stores_the_language_as_sent_witness :
  fst (route_language (Some ("Bearer " ++ ann_access_token)) (Some "zz")
         (world development [stored_ann]))
  = respond 200 (JsonMessage true "Language preference updated successfully")
  /\ exists u',
       prisma.lookup_id "user-0"
         (users (snd (route_language (Some ("Bearer " ++ ann_access_token)) (Some "zz")
                        (world development [stored_ann]))))
       = Some u'
       /\ User.preferredLanguage u' = "zz"
       /\ User.email u' = "a@test.io".
Proof.
  assert (Ha : authenticateToken (Some ("Bearer " ++ ann_access_token))
                 (world development [stored_ann]) = Next (claims_of "user-0" None))
    by reflexivity.
  assert (Hid : JwtPayload.userId (claims_of "user-0" None) <> "") by discriminate.
  assert (Hlen : 2 <= String.length "zz") by (cbn; lia).
  assert (Hl : prisma.lookup_id (JwtPayload.userId (claims_of "user-0" None))
                 (users (world development [stored_ann])) = Some stored_ann)
    by reflexivity.
  exact (route_language_stores_the_language_as_sent
           (Some ("Bearer " ++ ann_access_token)) "zz" (world development [stored_ann])
           (claims_of "user-0" None) stored_ann Ha Hid Hlen Hl).
Defined.

(** X17, witness: a one-character language, and a token for a user that
    is not stored. *)
Lemma route_language_refusals_witness :
  snd (route_language (Some ("Bearer " ++ ann_access_token)) (Some "x")
         (world development [stored_ann]))
  = world development [stored_ann]
  /\ fst (route_language (Some ("Bearer " ++ ann_access_token)) (Some "ta")
            (world development []))
     = respond 500 (JsonResult (failure "Internal server error")).
Proof.
  split.
  - apply (proj1 (route_language_refusals (Some ("Bearer " ++ ann_access_token)) (Some "x")
                    (world development [stored_ann]))).
    right. right. exists "x". split; [reflexivity | cbn; lia].
  - assert (Hlen : 2 <= String.length "ta") by (cbn; lia).
    assert (Hid : JwtPayload.userId (claims_of "user-0" None) <> "") by discriminate.
    apply (proj2 (route_language_refusals (Some ("Bearer " ++ ann_access_token)) (Some "ta")
                    (world development []))
             (claims_of "user-0" None) "ta");
      [reflexivity | exact Hid | reflexivity | exact Hlen | reflexivity].
Defined.

(** X18, witness: Ann's form, with the phone number typed [98765-43210]. *)
Lemma submitted_registration_passes_the_server_length_tests_witness :
  exists userData,
    RegisterForm.handleSubmit ann_form "password123" = Some userData
    /\ (String.length (Js.trim (name userData)) <? 2)%nat = false
    /\ password userData = "password123"
    /\ phoneNumber userData = Some "9876543210".
Proof.
  eexists. split; [reflexivity |].
  destruct (submitted_registration_passes_the_server_length_tests
              ann_form "password123" _ eq_refl) as (_ & Hname & Hpw & _).
  split; [exact Hname |]. split; [exact Hpw | reflexivity].
Defined.

(** X19, witness: [a@test.io]. *)
Lemma email_shape_needs_at_and_dot_witness :
  RegisterForm.email_shape "a@test.io" = true
  /\ has_char "@" "a@test.io" = true /\ has_char "." "a@test.io" = true
  /\ 5 <= String.length "a@test.io".
Proof.
  assert (Hs : RegisterForm.email_shape "a@test.io" = true) by reflexivity.
  split; [exact Hs |].
  exact (email_shape_needs_at_and_dot "a@test.io" Hs).
Defined.


(** X22, witness: the API answers Ann's login with a session. *)
Lemma client_login_stores_the_session_witness :
  AuthContext.user
    (fst (AuthContext.login
            (AuthContext.Fulfilled
               {| success := true; user := Some ann_object; token := Some ann_access_token;
                  refreshToken := Some ann_refresh_token; error := None |})
            signed_out))
  = Some ann_object
  /\ request_interceptor
       (AuthContext.localStorage
          (fst (AuthContext.login
                  (AuthContext.Fulfilled
                     {| success := true; user := Some ann_object;
                        token := Some ann_access_token;
                        refreshToken := Some ann_refresh_token; error := None |})
                  signed_out)))
     = Some ("Bearer " ++ ann_access_token).
Proof.
  assert (Hne : ann_access_token <> "") by discriminate.
  destruct (client_login_stores_the_session ann_object ann_access_token
              (Some ann_refresh_token) None signed_out Hne)
    as (Hu & _ & _ & _ & _ & Hhdr).
  split; [exact Hu | exact Hhdr].
Defined.

(** X23, witness: a reload with user data that does not parse. *)
Lemma mount_restores_only_a_readable_session_witness :
  AuthContext.user (AuthContext.mount reloaded_corrupt) = None
  /\ Js.get "authToken" (AuthContext.localStorage (AuthContext.mount reloaded_corrupt)) = None
  /\ Js.get "refreshToken" (AuthContext.localStorage (AuthContext.mount reloaded_corrupt))
     = None
  /\ Js.get "userData" (AuthContext.localStorage (AuthContext.mount reloaded_corrupt)) = None.
Proof.
  apply (proj1 (mount_restores_only_a_readable_session reloaded_corrupt) "t0ken" "garbage");
    try reflexivity; discriminate.
Defined.


End MoreExamples.
